(** * vscan-http-request-smuggler: a shallow embedding of [main.py]

    The script sends three canned probes (CL.TE, TE.CL, TE.TE) through
    [send_request] and looks for the marker ["X-Foo: bar"] in the response
    text.  The embedding keeps the Python program's shape:

    - Python values are the inductive [pyval]; a tuple is a [list pyval];
    - a function body is a computation in the monad [M]: it threads the
      [world] (the requests put on the network and the log records) and ends
      normally or with a Python exception;
    - [try]/[except] is the combinator [try_except_else];
    - the three library entry points the script calls and that live outside
      the repository ([json.loads], [urllib.parse.urlparse] and
      [requests.request]) are section variables. *)

From Stdlib Require Import ZArith List String Ascii Bool Lia.
From Stdlib Require Import DecimalString.
From Stdlib Require Import Floats.SpecFloat.
Import ListNotations.

Local Open Scope string_scope.
Local Open Scope Z_scope.
Set Warnings "-register-all".

(** ** Python values *)

Module Py.

(** The values [json.loads] can produce, which are also the values the
    script passes around.  A [str] is a Rocq [string], one [ascii] per
    character; a [float] is an IEEE binary64 given by [spec_float]; a
    [dict] keeps its insertion order. *)
Inductive pyval : Type :=
| PNone
| PBool (b : bool)
| PInt (z : Z)
| PFloat (f : spec_float)
| PStr (s : string)
| PList (l : list pyval)
| PDict (d : list (pyval * pyval)).

Definition pydict := list (pyval * pyval).

(** The exception classes the script can meet.  [JSONDecodeError] is a
    subclass of [ValueError]; [HTTPError] and the other transport errors are
    subclasses of [RequestException]; [OtherError] stands for any further
    subclass of [Exception]. *)
Inductive exn_class : Type :=
| JSONDecodeError
| TypeError
| ValueError
| HTTPError
| RequestException
| OtherError.

Record pyexn : Type := mk_exn { exn_cls : exn_class; exn_msg : string }.

Definition is_JSONDecodeError (e : pyexn) : bool :=
  match exn_cls e with JSONDecodeError => true | _ => false end.

Definition is_RequestException (e : pyexn) : bool :=
  match exn_cls e with HTTPError | RequestException => true | _ => false end.

Definition type_name (v : pyval) : string :=
  match v with
  | PNone => "NoneType"
  | PBool _ => "bool"
  | PInt _ => "int"
  | PFloat _ => "float"
  | PStr _ => "str"
  | PList _ => "list"
  | PDict _ => "dict"
  end.

(** [bool(v)] *)
Definition truthy (v : pyval) : bool :=
  match v with
  | PNone => false
  | PBool b => b
  | PInt z => negb (z =? 0)
  | PFloat (S754_zero _) => false
  | PFloat _ => true
  | PStr s => negb (String.eqb s "")
  | PList l => match l with [] => false | _ => true end
  | PDict d => match d with [] => false | _ => true end
  end.

(** [all(l)] *)
Definition py_all (l : list pyval) : bool := forallb truthy l.

(** *** Dictionary keys

    Keys compare by [==]: numbers of different types are the same key when
    they have the same value ([1], [1.0] and [True]).  [NaN] is the one
    object the [json] module keeps, so it is found again by identity. *)
Inductive number : Type :=
| Dyadic (m e : Z)     (* m * 2^e *)
| PosInf
| NegInf
| NaN.

Definition number_of (v : pyval) : option number :=
  match v with
  | PBool b => Some (Dyadic (if b then 1 else 0) 0)
  | PInt z => Some (Dyadic z 0)
  | PFloat (S754_zero _) => Some (Dyadic 0 0)
  | PFloat (S754_finite s m e) => Some (Dyadic (if s then Z.neg m else Z.pos m) e)
  | PFloat (S754_infinity s) => Some (if s then NegInf else PosInf)
  | PFloat S754_nan => Some NaN
  | _ => None
  end.

Definition number_eqb (a b : number) : bool :=
  match a, b with
  | Dyadic m1 e1, Dyadic m2 e2 =>
      let e := Z.min e1 e2 in
      m1 * 2 ^ (e1 - e) =? m2 * 2 ^ (e2 - e)
  | PosInf, PosInf | NegInf, NegInf | NaN, NaN => true
  | _, _ => false
  end.

Definition key_eqb (k1 k2 : pyval) : bool :=
  match k1, k2 with
  | PNone, PNone => true
  | PStr a, PStr b => String.eqb a b
  | _, _ =>
      match number_of k1, number_of k2 with
      | Some a, Some b => number_eqb a b
      | _, _ => false
      end
  end.

Definition hashable (v : pyval) : bool :=
  match v with PList _ | PDict _ => false | _ => true end.

(** [d.get(k)] *)
Fixpoint dict_get (k : pyval) (d : pydict) : option pyval :=
  match d with
  | [] => None
  | (k', v) :: d' => if key_eqb k' k then Some v else dict_get k d'
  end.

(** [d[k] = v]: an equal key keeps its place (and its key object), a new
    key goes last. *)
Fixpoint dict_setitem (k v : pyval) (d : pydict) : pydict :=
  match d with
  | [] => [(k, v)]
  | (k', v') :: d' =>
      if key_eqb k' k then (k', v) :: d' else (k', v') :: dict_setitem k v d'
  end.

(** A dict holds a key once. *)
Fixpoint unique_keys (d : pydict) : bool :=
  match d with
  | [] => true
  | (k, _) :: d' => negb (existsb (fun kv => key_eqb k (fst kv)) d') && unique_keys d'
  end.

Definition dict_merge (d other : pydict) : pydict :=
  fold_left (fun acc kv => dict_setitem (fst kv) (snd kv) acc) other d.

Definition string_of_nat (n : nat) : string :=
  NilEmpty.string_of_uint (Nat.to_uint n).

Definition string_of_Z (z : Z) : string :=
  NilEmpty.string_of_int (Z.to_int z).

(** One element of the sequence given to [dict.update], read as a
    [(key, value)] pair: the element is turned into a sequence, which must
    have two items, and the first must be hashable. *)
Definition update_pair (i : nat) (item : pyval) : pyexn + (pyval * pyval) :=
  let bad_length (n : nat) :=
    inl (mk_exn ValueError
           ("dictionary update sequence element #" ++ string_of_nat i ++
            " has length " ++ string_of_nat n ++ "; 2 is required")) in
  let pair (k v : pyval) :=
    if hashable k then inr (k, v)
    else inl (mk_exn TypeError ("unhashable type: '" ++ type_name k ++ "'")) in
  match item with
  | PList [k; v] => pair k v
  | PList l => bad_length (List.length l)
  | PStr (String a (String b EmptyString)) =>
      inr (PStr (String a EmptyString), PStr (String b EmptyString))
  | PStr s => bad_length (String.length s)
  | PDict [(k1, _); (k2, _)] => pair k1 k2
  | PDict d => bad_length (List.length d)
  | _ =>
      inl (mk_exn TypeError
             ("cannot convert dictionary update sequence element #" ++
              string_of_nat i ++ " to a sequence"))
  end.

Fixpoint update_pairs (i : nat) (items : list pyval) (d : pydict) : pyexn + pydict :=
  match items with
  | [] => inr d
  | item :: rest =>
      match update_pair i item with
      | inl e => inl e
      | inr (k, v) => update_pairs (S i) rest (dict_setitem k v d)
      end
  end.

Definition chars (s : string) : list pyval :=
  map (fun c => PStr (String c EmptyString)) (list_ascii_of_string s).

(** [d.update(other)]: a mapping is merged key by key; any other iterable
    is read as a sequence of pairs; what cannot be iterated is a
    [TypeError]. *)
Definition dict_update (d : pydict) (other : pyval) : pyexn + pydict :=
  match other with
  | PDict o => inr (dict_merge d o)
  | PList items => update_pairs 0 items d
  | PStr s => update_pairs 0 (chars s) d
  | _ => inl (mk_exn TypeError ("'" ++ type_name other ++ "' object is not iterable"))
  end.

(** [needle in hay] on strings. *)
Fixpoint str_contains (needle hay : string) : bool :=
  String.prefix needle hay ||
  match hay with
  | EmptyString => false
  | String _ hay' => str_contains needle hay'
  end.

(** [needle in container] for a [str] needle. *)
Definition py_in (needle : string) (container : pyval) : pyexn + bool :=
  match container with
  | PStr s => inr (str_contains needle s)
  | PList l => inr (existsb (key_eqb (PStr needle)) l)
  | PDict d => inr (existsb (fun kv => key_eqb (fst kv) (PStr needle)) d)
  | _ =>
      inl (mk_exn TypeError
             ("argument of type '" ++ type_name container ++ "' is not iterable"))
  end.

End Py.
Import Py.

(** ** The world, and computations over it *)

(** The keyword arguments of the one [requests.request] call. *)
Record request : Type := mk_request {
  req_method : string;
  req_url : string;
  req_data : pyval;
  req_headers : pyval;
  req_timeout : Z;
  req_allow_redirects : bool
}.

(** What the script reads of a [requests.Response]. *)
Record response : Type := mk_response {
  status_code : Z;
  reason : string;
  resp_url : string;
  resp_headers : pydict;
  text : string
}.

Inductive probe_id : Type := CL_TE | TE_CL | TE_TE.

Inductive level : Type := INFO | WARNING | ERROR.

(** One constructor per [logging] call of the script; a record keeps the
    values its format string prints. *)
Inductive log_msg : Type :=
| InvalidJSONHeaders (e : pyexn)
| SendingRequest (method url : string)
| DataIs (data : pyval)
| HeadersAre (headers : pyval)
| ReceivedStatus (code : Z)
| ResponseHeaders (headers : pydict)
| ResponseContent (body : string)
| RequestFailed (e : pyexn)
| UnexpectedError (e : pyexn)
| VulnerabilityDetected (p : probe_id)
| NoImmediateVulnerability (p : probe_id)
| InvalidURL
| StartingScan (url : string)
| ScanCompletedFound
| ScanCompletedNotFound
| ScanError (e : pyexn).

Record world : Type := mk_world {
  sent : list request;              (* requests handed to the network, oldest first *)
  logs : list (level * log_msg)     (* log records, oldest first *)
}.

Definition empty_world : world := mk_world [] [].

Inductive outcome (A : Type) : Type :=
| Ok (a : A)
| Raise (e : pyexn).
Arguments Ok {A} a.
Arguments Raise {A} e.

Definition M (A : Type) : Type := world -> outcome A * world.

Definition ret {A} (a : A) : M A := fun w => (Ok a, w).

Definition bind {A B} (c : M A) (k : A -> M B) : M B :=
  fun w =>
    match c w with
    | (Ok a, w') => k a w'
    | (Raise e, w') => (Raise e, w')
    end.

Definition raise {A} (e : pyexn) : M A := fun w => (Raise e, w).

Definition lift {A} (r : pyexn + A) : M A :=
  match r with inl e => raise e | inr a => ret a end.

Definition log (l : level) (m : log_msg) : M unit :=
  fun w => (Ok tt, mk_world (sent w) (logs w ++ [(l, m)])).

Definition when (b : bool) (c : M unit) : M unit := if b then c else ret tt.

(** [try: body / except ...: handler / else: orelse].  [handler e] is [None]
    when no [except] clause matches [e], which then propagates; an exception
    of [orelse] is not handled here. *)
Definition try_except_else {A B} (body : M A) (handler : pyexn -> option (M B))
    (orelse : A -> M B) : M B :=
  fun w =>
    match body w with
    | (Ok a, w') => orelse a w'
    | (Raise e, w') =>
        match handler e with
        | Some h => h w'
        | None => (Raise e, w')
        end
    end.

Definition try_except {A} (body : M A) (handler : pyexn -> option (M A)) : M A :=
  try_except_else body handler ret.

Declare Scope py_scope.
Delimit Scope py_scope with py.
Notation "x <- c ;; k" := (bind c (fun x => k))
  (at level 61, c at next level, right associativity) : py_scope.
Notation "c ;; k" := (bind c (fun _ => k))
  (at level 61, right associativity) : py_scope.
Local Open Scope py_scope.

(** [a, b, c = t] *)
Definition unpack3 (t : list pyval) : M (pyval * pyval * pyval) :=
  match t with
  | [a; b; c] => ret (a, b, c)
  | _ =>
      raise (mk_exn ValueError
        (if (List.length t <? 3)%nat
         then "not enough values to unpack (expected 3, got " ++
              string_of_nat (List.length t) ++ ")"
         else "too many values to unpack (expected 3)"))
  end.

(** [response.raise_for_status()] *)
Definition raise_for_status (r : response) : M unit :=
  let c := status_code r in
  if (400 <=? c) && (c <? 500) then
    raise (mk_exn HTTPError
      (string_of_Z c ++ " Client Error: " ++ reason r ++ " for url: " ++ resp_url r))
  else if (500 <=? c) && (c <? 600) then
    raise (mk_exn HTTPError
      (string_of_Z c ++ " Server Error: " ++ reason r ++ " for url: " ++ resp_url r))
  else ret tt.

(** The result of [urlparse]. *)
Record ParseResult : Type := mk_parse {
  scheme : string;
  netloc : string;
  path : string;
  params : string;
  query : string;
  fragment : string
}.

Definition CRLF : string := String "013" (String "010" EmptyString).

Definition sentinel : string := "X-Foo: bar".

(** The three hardcoded probes: name, header dict and body (main.py
    78-81 and 91; 103-106 and 117; 129-131 and 142). *)
Record ProbeDefinition : Type := mk_probe {
  probe_name : probe_id;
  probe_headers : pydict;
  probe_data : string
}.

Definition cl_te : ProbeDefinition :=
  mk_probe CL_TE
    [(PStr "Content-Length", PStr "41"); (PStr "Transfer-Encoding", PStr "chunked")]
    ("0" ++ CRLF ++ CRLF ++ "GET / HTTP/1.1" ++ CRLF ++ "X-Foo: bar" ++ CRLF ++ CRLF).

Definition te_cl : ProbeDefinition :=
  mk_probe TE_CL
    [(PStr "Transfer-Encoding", PStr "chunked"); (PStr "Content-Length", PStr "100")]
    ("5c" ++ CRLF ++ "GET / HTTP/1.1" ++ CRLF ++ "Host: example.com" ++ CRLF ++
     "Content-Length: 10" ++ CRLF ++ "X-Foo: bar" ++ CRLF ++ CRLF ++ "0" ++ CRLF ++ CRLF).

Definition te_te : ProbeDefinition :=
  mk_probe TE_TE
    [(PStr "Transfer-Encoding", PStr "chunked, chunked")]
    ("0" ++ CRLF ++ CRLF ++ "GET / HTTP/1.1" ++ CRLF ++ "X-Foo: bar" ++ CRLF ++ CRLF).

Definition all_probes : list ProbeDefinition := [cl_te; te_cl; te_te].

(** The parsed command line (main.py 11-22). *)
Record Args : Type := mk_args {
  arg_url : string;
  arg_method : string;
  arg_data : pyval;
  arg_headers : pyval;
  arg_timeout : Z;
  arg_verbose : bool
}.

(** The type of [send_request], as [detect_http_smuggling] calls it. *)
Definition sender : Type :=
  string -> string -> pyval -> pyval -> Z -> bool -> M (list pyval).

(** ** The script *)

Module Scanner.

Section Script.

(** [json.loads] on a [str]: the decoded value, or the message of the
    [JSONDecodeError] it raises. *)
Variable json_loads : string -> string + pyval.

(** [urlparse] on a [str]: the parse, or the exception it raises (a
    [ValueError] on a malformed bracketed host, for one). *)
Variable urlparse : string -> pyexn + ParseResult.

(** [requests.request]: given the requests made so far and the one being
    made, the response received or the exception raised. *)
Variable network : list request -> request -> pyexn + response.

(** [json.loads(s)] on any value: only [str] is decoded (the script has no
    [bytes]); anything else is a [TypeError]. *)
Definition json_loads_py (s : pyval) : M pyval :=
  match s with
  | PStr str =>
      match json_loads str with
      | inr v => ret v
      | inl msg => raise (mk_exn JSONDecodeError msg)
      end
  | _ =>
      raise (mk_exn TypeError
        ("the JSON object must be str, bytes or bytearray, not " ++ type_name s))
  end.

(** [requests.request(method, url, data=, headers=, timeout=,
    allow_redirects=False)]: the request goes on the network, whatever
    comes back. *)
Definition requests_request (rq : request) : M response :=
  fun w => let w' := mk_world (sent w ++ [rq]) (logs w) in
           match network (sent w) rq with
           | inr r => (Ok r, w')
           | inl e => (Raise e, w')
           end.

(** main.py 24-32 *)
Definition is_valid_url (url : string) : M bool :=
  try_except
    (result <- lift (urlparse url) ;;
     ret (py_all [PStr (scheme result); PStr (netloc result)]))
    (fun _ => Some (ret false)).

(** main.py 48-63: [send_request] from the verbose block on, with
    [headers] as the first block left it. *)
Definition send_request_perform (url method : string) (data headers : pyval)
    (timeout : Z) (verbose : bool) : M (list pyval) :=
  when verbose
    (log INFO (SendingRequest method url) ;;
     when (truthy data) (log INFO (DataIs data)) ;;
     when (truthy headers) (log INFO (HeadersAre headers))) ;;
  response <- requests_request (mk_request method url data headers timeout false) ;;
  raise_for_status response ;;
  when verbose
    (log INFO (ReceivedStatus (status_code response)) ;;
     log INFO (ResponseHeaders (resp_headers response)) ;;
     log INFO (ResponseContent (text response))) ;;
  ret [PInt (status_code response); PDict (resp_headers response); PStr (text response)].

(** main.py 34-70 *)
Definition send_request (url method : string) (data headers : pyval)
    (timeout : Z) (verbose : bool) : M (list pyval) :=
  try_except
    (if truthy headers then
       try_except_else
         (json_loads_py headers)
         (fun e =>
            if is_JSONDecodeError e
            then Some (log ERROR (InvalidJSONHeaders e) ;; ret [PNone; PNone])
            else None)
         (fun headers' => send_request_perform url method data headers' timeout verbose)
     else send_request_perform url method data headers timeout verbose)
    (fun e =>
       if is_RequestException e
       then Some (log ERROR (RequestFailed e) ;; ret [PNone; PNone; PNone])
       else Some (log ERROR (UnexpectedError e) ;; ret [PNone; PNone; PNone])).

Section Executor.

(** The function bound to the name [send_request] when
    [detect_http_smuggling] runs. *)
Variable send : sender.

(** The headers of one probe: the fixed dict, with the custom headers
    merged in when there are any (the [try] bodies at main.py 84-86,
    110-112 and 135-137, under their [if headers:]). *)
Definition merged_headers (p : ProbeDefinition) (headers : pyval) : M pydict :=
  if truthy headers then
    custom_headers <- json_loads_py headers ;;
    lift (dict_update (probe_headers p) custom_headers)
  else ret (probe_headers p).

(** main.py 95-100, 120-125, 145-150: [Some true] is [return True], [None]
    goes on to what follows. *)
Definition check_response (p : ProbeDefinition) (status resp_text : pyval)
    : M (option bool) :=
  if truthy status && truthy resp_text then
    found <- lift (py_in sentinel resp_text) ;;
    if found : bool then
      log WARNING (VulnerabilityDetected (probe_name p)) ;; ret (Some true)
    else
      log INFO (NoImmediateVulnerability (probe_name p)) ;; ret None
  else ret None.

(** One of the three blocks of [detect_http_smuggling] (main.py 77-100,
    102-125, 128-150).  [Some b] is [return b]; [None] falls through to the
    next block. *)
Definition run_probe (p : ProbeDefinition) (url method : string) (headers : pyval)
    (timeout : Z) (verbose : bool) : M (option bool) :=
  try_except_else
    (merged_headers p headers)
    (fun e =>
       if is_JSONDecodeError e
       then Some (log ERROR (InvalidJSONHeaders e) ;; ret (Some false))
       else None)
    (fun probe_hdrs =>
       t <- send url method (PStr (probe_data p)) (PDict probe_hdrs) timeout verbose ;;
       r <- unpack3 t ;;
       let '(status, _, resp_text) := r in
       check_response p status resp_text).

(** main.py 72-153 *)
Definition detect_with (url method : string) (data headers : pyval)
    (timeout : Z) (verbose : bool) : M bool :=
  r1 <- run_probe cl_te url method headers timeout verbose ;;
  match r1 with
  | Some b => ret b
  | None =>
      r2 <- run_probe te_cl url method headers timeout verbose ;;
      match r2 with
      | Some b => ret b
      | None =>
          r3 <- run_probe te_te url method headers timeout verbose ;;
          match r3 with
          | Some b => ret b
          | None => ret false
          end
      end
  end.

(** The probes whose block is entered when the blocks of [ps] are run in
    turn from [w]: a block that returns or raises ends the run. *)
Fixpoint probes_run (ps : list ProbeDefinition) (url method : string)
    (headers : pyval) (timeout : Z) (verbose : bool) (w : world) : list probe_id :=
  match ps with
  | [] => []
  | p :: rest =>
      probe_name p ::
      match run_probe p url method headers timeout verbose w with
      | (Ok None, w') => probes_run rest url method headers timeout verbose w'
      | _ => []
      end
  end.

End Executor.

Definition detect_http_smuggling : string -> string -> pyval -> pyval -> Z -> bool -> M bool :=
  detect_with send_request.

(** main.py 155-175, from the parsed arguments on.  The value is the exit
    status of the process: [sys.exit(1)] gives 1, falling off the end of
    [main] gives 0. *)
Definition main (args : Args) : M Z :=
  valid <- is_valid_url (arg_url args) ;;
  if negb valid then
    log ERROR InvalidURL ;; ret 1
  else
    log INFO (StartingScan (arg_url args)) ;;
    try_except
      (found <- detect_http_smuggling (arg_url args) (arg_method args) (arg_data args)
                  (arg_headers args) (arg_timeout args) (arg_verbose args) ;;
       (if found : bool
        then log INFO ScanCompletedFound
        else log INFO ScanCompletedNotFound) ;;
       ret 0)
      (fun e => Some (log ERROR (ScanError e) ;; ret 1)).

(** *** Vocabulary of the properties *)

(** The custom header string is absent (or empty), or it is the JSON text
    of an object. *)
Definition absent_or_object (headers : pyval) : Prop :=
  truthy headers = false \/
  exists s o, headers = PStr s /\ json_loads s = inr (PDict o).

(** The custom header string is there and is not JSON; [msg] is the
    decoder's message. *)
Definition malformed (headers : pyval) (msg : string) : Prop :=
  exists s, headers = PStr s /\ s <> "" /\ json_loads s = inl msg.

(** The [headers] value [send_request] gives to [requests.request], when
    it gets that far: the argument itself when it is falsy, the decoded
    value when it is a JSON string. *)
Definition request_headers (headers : pyval) : option pyval :=
  if truthy headers then
    match headers with
    | PStr s => match json_loads s with inr v => Some v | inl _ => None end
    | _ => None
    end
  else Some headers.

(** The world after the blocks of [ps], when each of them falls through
    to the next. *)
Fixpoint fall_through (send : sender) (ps : list ProbeDefinition) (url method : string)
    (headers : pyval) (timeout : Z) (verbose : bool) (w : world) : option world :=
  match ps with
  | [] => Some w
  | p :: rest =>
      match run_probe send p url method headers timeout verbose w with
      | (Ok None, w') => fall_through send rest url method headers timeout verbose w'
      | _ => None
      end
  end.

End Script.

End Scanner.
Import Scanner.

(** The contract of the Request Sender on a header dict: it returns, and
    what it returns is a triple whose third item is [None] or a [str]. *)
Definition answers_with_triple (send : sender) : Prop :=
  forall url method data d timeout verbose w,
  exists status hdrs body w',
    send url method data (PDict d) timeout verbose w = (Ok [status; hdrs; body], w') /\
    (body = PNone \/ exists s, body = PStr s).

Definition type_error_not_dict : pyexn :=
  mk_exn TypeError "the JSON object must be str, bytes or bytearray, not dict".

Definition add_log (w : world) (l : level) (m : log_msg) : world :=
  mk_world (sent w) (logs w ++ [(l, m)]).

(** ** Stand-ins for the library and the network, for the examples *)

Module Mock.

Definition dq : string := String "034" EmptyString.

(** The header string [{"X-Foo": "bar"}]. *)
Definition xfoo_json : string :=
  "{" ++ dq ++ "X-Foo" ++ dq ++ ": " ++ dq ++ "bar" ++ dq ++ "}".

(** [json.loads] at the three strings of the examples: an object, the
    number [3], and ["not json"], which has no JSON value at its first
    character. *)
Definition json_loads (s : string) : string + pyval :=
  if String.eqb s xfoo_json then inr (PDict [(PStr "X-Foo", PStr "bar")])
  else if String.eqb s "3" then inr (PInt 3)
  else inl "Expecting value: line 1 column 1 (char 0)".

(** [urlparse] at the two URLs of the examples. *)
Definition urlparse (url : string) : pyexn + ParseResult :=
  if String.eqb url "http://example.com"
  then inr (mk_parse "http" "example.com" "" "" "" "")
  else inr (mk_parse "" "" url "" "" "").

Definition reply (code : Z) (phrase body : string) (rq : request) : response :=
  mk_response code phrase (req_url rq) [] body.

(** A server that echoes the marker in every response body. *)
Definition echo (_ : list request) (rq : request) : pyexn + response :=
  inr (reply 200 "OK" sentinel rq).

(** A server that never does. *)
Definition quiet (_ : list request) (rq : request) : pyexn + response :=
  inr (reply 200 "OK" "ok" rq).

(** A server that answers 404, with the marker in the error page. *)
Definition not_found (_ : list request) (rq : request) : pyexn + response :=
  inr (reply 404 "Not Found" sentinel rq).

(** A Request Sender that records the call as a request and answers
    [answer rq] without raising. *)
Definition spy (answer : request -> list pyval) : sender :=
  fun url method data headers timeout verbose w =>
    let rq := mk_request method url data headers timeout false in
    (Ok (answer rq), mk_world (sent w ++ [rq]) (logs w)).

(** It finds the marker in the answer to the TE.CL body only. *)
Definition answer_te_cl (rq : request) : list pyval :=
  match req_data rq with
  | PStr d =>
      if String.eqb d (probe_data te_cl)
      then [PInt 200; PDict []; PStr ("HTTP/1.1 200 OK" ++ CRLF ++ sentinel)]
      else [PInt 200; PDict []; PStr "ok"]
  | _ => [PNone; PNone; PNone]
  end.

(** An answer that never holds the marker. *)
Definition answer_ok (_ : request) : list pyval := [PInt 200; PDict []; PStr "ok"].

(** The command line [http://example.com --headers <headers>]. *)
Definition args0 (headers : pyval) : Args :=
  mk_args "http://example.com" "GET" PNone headers 10 false.

Definition decode_error : pyexn :=
  mk_exn JSONDecodeError "Expecting value: line 1 column 1 (char 0)".

End Mock.

(** Further stand-ins. *)
Module Mock2.

(** A Request Sender that records the call and answers 200 with the
    request body as the response text. *)
Definition answer_reflect (rq : request) : list pyval :=
  [PInt 200; PDict []; req_data rq].

(** A server that answers every request with a redirect. *)
Definition moved (_ : list request) (rq : request) : pyexn + response :=
  inr (Mock.reply 302 "Found" "" rq).

(** A server that cannot be reached. *)
Definition refused (_ : list request) (_ : request) : pyexn + response :=
  inl (mk_exn RequestException "Connection refused").

(** The header string [[["X-A", "1"]]], a JSON array of one pair, and its
    value; any other string as in [Mock.json_loads]. *)
Definition pairs_json : string :=
  "[[" ++ Mock.dq ++ "X-A" ++ Mock.dq ++ ", " ++ Mock.dq ++ "1" ++ Mock.dq ++ "]]".

Definition json_loads (s : string) : string + pyval :=
  if String.eqb s pairs_json then inr (PList [PList [PStr "X-A"; PStr "1"]])
  else Mock.json_loads s.

End Mock2.

(** ** Properties *)

Lemma dict_setitem_not_nil k v d : dict_setitem k v d <> [].
Proof. destruct d as [|[k' v'] d]; simpl; [|destruct (key_eqb k' k)]; discriminate. Qed.

Lemma dict_merge_not_nil o : forall d, d <> [] -> dict_merge d o <> [].
Proof.
  unfold dict_merge. induction o as [|kv o IH]; simpl; intros d Hd; [exact Hd|].
  apply IH, dict_setitem_not_nil.
Qed.

Lemma update_pairs_not_nil items : forall i d d',
  d <> [] -> update_pairs i items d = inr d' -> d' <> [].
Proof.
  induction items as [|item items IH]; simpl; intros i d d' Hd H.
  - now inversion H; subst.
  - destruct (update_pair i item) as [e|[k v]]; [discriminate|].
    eapply IH; [|exact H]. apply dict_setitem_not_nil.
Qed.

Lemma dict_update_not_nil d other d' :
  d <> [] -> dict_update d other = inr d' -> d' <> [].
Proof.
  destruct other; simpl; intros Hd H; try discriminate.
  - eapply update_pairs_not_nil; eauto.
  - eapply update_pairs_not_nil; eauto.
  - inversion H; subst. now apply dict_merge_not_nil.
Qed.

Section Properties.

Variable json_loads : string -> string + pyval.
Variable urlparse : string -> pyexn + ParseResult.
Variable network : list request -> request -> pyexn + response.

Abbreviation send_request := (send_request json_loads network).
Abbreviation detect_http_smuggling := (detect_http_smuggling json_loads network).
Abbreviation merged_headers := (merged_headers json_loads).
Abbreviation run_probe := (run_probe json_loads).
Abbreviation detect_with := (detect_with json_loads).
Abbreviation probes_run := (probes_run json_loads).

Abbreviation absent_or_object := (absent_or_object json_loads).
Abbreviation malformed := (malformed json_loads).
Abbreviation request_headers := (request_headers json_loads).
Abbreviation fall_through := (fall_through json_loads).

(** *** The header dict of a probe *)

Lemma merged_headers_world p headers w : snd (merged_headers p headers w) = w.
Proof.
  unfold Scanner.merged_headers, json_loads_py, bind, lift, raise, ret.
  destruct (truthy headers); [|reflexivity].
  destruct headers; try reflexivity.
  destruct (json_loads s) as [msg|v]; [reflexivity|].
  destruct (dict_update (probe_headers p) v); reflexivity.
Qed.

Lemma merged_headers_absent p headers w :
  truthy headers = false -> merged_headers p headers w = (Ok (probe_headers p), w).
Proof. unfold Scanner.merged_headers. now intros ->. Qed.

Lemma merged_headers_object p s o w :
  json_loads s = inr (PDict o) ->
  merged_headers p (PStr s) w =
  (Ok (if truthy (PStr s) then dict_merge (probe_headers p) o else probe_headers p), w).
Proof.
  intros H. unfold Scanner.merged_headers, json_loads_py, bind.
  destruct (truthy (PStr s)); [|reflexivity]. now rewrite H.
Qed.

Lemma merged_headers_malformed p headers msg w :
  malformed headers msg ->
  merged_headers p headers w = (Raise (mk_exn JSONDecodeError msg), w).
Proof.
  intros (s & -> & Hs & H). unfold Scanner.merged_headers, json_loads_py, bind.
  simpl. destruct (String.eqb_spec s ""); [contradiction|]. simpl. now rewrite H.
Qed.

Lemma merged_headers_ok p headers w :
  absent_or_object headers ->
  exists h, merged_headers p headers w = (Ok h, w) /\
            (probe_headers p <> [] -> h <> []).
Proof.
  intros [H|(s & o & -> & H)].
  - eexists; split; [now apply merged_headers_absent|auto].
  - eexists; split; [apply merged_headers_object, H|].
    destruct (truthy (PStr s)); [apply dict_merge_not_nil|auto].
Qed.

Lemma merged_headers_not_nil p headers w h w' :
  probe_headers p <> [] -> merged_headers p headers w = (Ok h, w') -> h <> [].
Proof.
  intros Hp. unfold Scanner.merged_headers, json_loads_py, bind, lift, raise, ret.
  destruct (truthy headers); [|now intros [= <- _]].
  destruct headers; try discriminate.
  destruct (json_loads s) as [msg|v]; [discriminate|].
  destruct (dict_update (probe_headers p) v) as [e|d] eqn:E; [discriminate|].
  intros [= <- _]. eapply dict_update_not_nil; eauto.
Qed.

(** What a block of the executor does, by the outcome of its header
    merge. *)
Lemma run_probe_unfold send p url method headers timeout verbose w :
  run_probe send p url method headers timeout verbose w =
  match merged_headers p headers w with
  | (Ok h, _) =>
      (t <- send url method (PStr (probe_data p)) (PDict h) timeout verbose ;;
       r <- unpack3 t ;;
       let '(status, _, resp_text) := r in
       check_response p status resp_text) w
  | (Raise e, _) =>
      if is_JSONDecodeError e
      then (Ok (Some false), add_log w ERROR (InvalidJSONHeaders e))
      else (Raise e, w)
  end.
Proof.
  unfold Scanner.run_probe, try_except_else.
  pose proof (merged_headers_world p headers w) as Hw.
  destruct (merged_headers p headers w) as [[h|e] w1]; simpl in Hw; subst w1.
  - reflexivity.
  - destruct (is_JSONDecodeError e); reflexivity.
Qed.

(** *** The Request Sender on a header dict *)

(** A non-empty dict given as [headers] never reaches the network:
    [json.loads] refuses it with a [TypeError], which the last [except]
    clause of [send_request] turns into the empty result. *)
Lemma send_request_dict url method data d timeout verbose w :
  d <> [] ->
  send_request url method data (PDict d) timeout verbose w =
  (Ok [PNone; PNone; PNone], add_log w ERROR (UnexpectedError type_error_not_dict)).
Proof. destruct d; [congruence|reflexivity]. Qed.

(** So a block run with the script's own [send_request] sends nothing and
    finds nothing. *)
Lemma run_probe_send_request p url method headers timeout verbose w :
  probe_headers p <> [] ->
  run_probe send_request p url method headers timeout verbose w =
  match merged_headers p headers w with
  | (Ok _, _) => (Ok None, add_log w ERROR (UnexpectedError type_error_not_dict))
  | (Raise e, _) =>
      if is_JSONDecodeError e
      then (Ok (Some false), add_log w ERROR (InvalidJSONHeaders e))
      else (Raise e, w)
  end.
Proof.
  intros Hp. rewrite run_probe_unfold.
  destruct (merged_headers p headers w) as [[h|e] w1] eqn:E; [|reflexivity].
  unfold bind. rewrite send_request_dict by (eapply merged_headers_not_nil; eauto).
  reflexivity.
Qed.

Lemma all_probes_headers p : In p all_probes -> probe_headers p <> [].
Proof. intros [<-|[<-|[<-|[]]]]; discriminate. Qed.

(** No block of the script ever marks a detection. *)
Lemma run_probe_send_request_never_detects p url method headers timeout verbose w :
  In p all_probes ->
  fst (run_probe send_request p url method headers timeout verbose w) <> Ok (Some true).
Proof.
  intros Hp. rewrite run_probe_send_request by now apply all_probes_headers.
  destruct (merged_headers p headers w) as [[h|e] w1]; [discriminate|].
  destruct (is_JSONDecodeError e); discriminate.
Qed.

(** *** What [send_request] does with the request *)

Lemma send_request_perform_answer url method data headers timeout verbose w r :
  network (sent w) (mk_request method url data headers timeout false) = inr r ->
  exists w',
    send_request_perform network url method data headers timeout verbose w =
    (if (400 <=? status_code r) && (status_code r <? 600)
     then (Raise (mk_exn HTTPError
             (string_of_Z (status_code r) ++
              (if status_code r <? 500 then " Client Error: " else " Server Error: ") ++
              reason r ++ " for url: " ++ resp_url r)), w')
     else (Ok [PInt (status_code r); PDict (resp_headers r); PStr (text r)],
           if verbose
           then add_log (add_log (add_log w' INFO (ReceivedStatus (status_code r)))
                           INFO (ResponseHeaders (resp_headers r)))
                  INFO (ResponseContent (text r))
           else w')) /\
    sent w' = (sent w ++ [mk_request method url data headers timeout false])%list.
Proof.
  intros H.
  unfold send_request_perform, bind, when, requests_request, raise_for_status, log, ret, raise.
  destruct verbose, (truthy data), (truthy headers); cbn [sent logs]; rewrite H;
    (eexists; split;
     [ destruct (400 <=? status_code r) eqn:E4, (status_code r <? 500) eqn:E5,
                (500 <=? status_code r) eqn:E6, (status_code r <? 600) eqn:E7;
       cbn; try reflexivity; lia
     | reflexivity ]).
Qed.

Lemma send_request_perform_failure url method data headers timeout verbose w e :
  network (sent w) (mk_request method url data headers timeout false) = inl e ->
  exists w',
    send_request_perform network url method data headers timeout verbose w = (Raise e, w') /\
    sent w' = (sent w ++ [mk_request method url data headers timeout false])%list.
Proof.
  intros H.
  unfold send_request_perform, bind, when, requests_request, log, ret.
  destruct verbose, (truthy data), (truthy headers); cbn [sent logs]; rewrite H;
    eexists; split; reflexivity.
Qed.

(** The try block of [send_request] around the request itself: whatever
    happens, a tuple comes back and one request was made. *)
Lemma send_request_perform_caught url method data headers timeout verbose w :
  exists t w',
    try_except (send_request_perform network url method data headers timeout verbose)
      (fun e =>
         if is_RequestException e
         then Some (log ERROR (RequestFailed e) ;; ret [PNone; PNone; PNone])%py
         else Some (log ERROR (UnexpectedError e) ;; ret [PNone; PNone; PNone])%py) w
    = (Ok t, w') /\
    sent w' = (sent w ++ [mk_request method url data headers timeout false])%list /\
    (t = [PNone; PNone; PNone] \/
     exists r, network (sent w) (mk_request method url data headers timeout false) = inr r /\
               ~ (400 <= status_code r < 600) /\
               t = [PInt (status_code r); PDict (resp_headers r); PStr (text r)]).
Proof.
  unfold try_except, try_except_else.
  destruct (network (sent w) (mk_request method url data headers timeout false)) as [e|r] eqn:N.
  - destruct (send_request_perform_failure url method data headers timeout verbose w e N)
      as (w' & -> & Hs).
    destruct (is_RequestException e);
      (do 2 eexists; split; [reflexivity|]; split; [exact Hs|now left]).
  - destruct (send_request_perform_answer url method data headers timeout verbose w r N)
      as (w' & -> & Hs).
    destruct ((400 <=? status_code r) && (status_code r <? 600)) eqn:E.
    + do 2 eexists; split; [reflexivity|]; split; [exact Hs|now left].
    + do 2 eexists. split; [reflexivity|]. split.
      * now destruct verbose.
      * right. exists r. repeat split; auto. lia.
Qed.

(** [send_request] never raises, makes at most one request, and answers
    with one of three tuples. *)
Lemma send_request_total url method data headers timeout verbose w :
  exists t w',
    send_request url method data headers timeout verbose w = (Ok t, w') /\
    (sent w' = sent w \/ exists rq, sent w' = (sent w ++ [rq])%list) /\
    (t = [PNone; PNone] \/ t = [PNone; PNone; PNone] \/
     exists r, t = [PInt (status_code r); PDict (resp_headers r); PStr (text r)]).
Proof.
  unfold Scanner.send_request.
  destruct (truthy headers) eqn:T.
  - destruct headers as [ | b | z | f | s | l | d ];
      try (do 2 eexists; split; [reflexivity|]; split; [now left|auto]; fail).
    unfold try_except at 1. unfold try_except_else at 1.
    unfold try_except_else at 1. unfold json_loads_py.
    destruct (json_loads s) as [msg|v].
    + do 2 eexists; split; [reflexivity|]; split; [now left|auto].
    + destruct (send_request_perform_caught url method data v timeout verbose w)
        as (t & w' & H & Hs & Ht).
      unfold try_except, try_except_else in H. cbn.
      destruct (send_request_perform network url method data v timeout verbose w)
        as [[t'|e] w1]; cbn.
      * inversion H; subst. do 2 eexists. split; [reflexivity|]. split; [eauto|].
        destruct Ht as [->|(r & _ & _ & ->)]; eauto.
      * do 2 eexists. split; [exact H|]. split; [eauto|].
        destruct Ht as [->|(r & _ & _ & ->)]; eauto.
  - destruct (send_request_perform_caught url method data headers timeout verbose w)
      as (t & w' & H & Hs & Ht).
    do 2 eexists. split; [exact H|]. split; [eauto|].
    destruct Ht as [->|(r & _ & _ & ->)]; eauto.
Qed.

(** *** The scan, run with the script's own [send_request] *)

Lemma detect_with_unfold send url method data headers timeout verbose w :
  detect_with send url method data headers timeout verbose w =
  match run_probe send cl_te url method headers timeout verbose w with
  | (Ok (Some b), w1) => (Ok b, w1)
  | (Raise e, w1) => (Raise e, w1)
  | (Ok None, w1) =>
      match run_probe send te_cl url method headers timeout verbose w1 with
      | (Ok (Some b), w2) => (Ok b, w2)
      | (Raise e, w2) => (Raise e, w2)
      | (Ok None, w2) =>
          match run_probe send te_te url method headers timeout verbose w2 with
          | (Ok (Some b), w3) => (Ok b, w3)
          | (Raise e, w3) => (Raise e, w3)
          | (Ok None, w3) => (Ok false, w3)
          end
      end
  end.
Proof.
  unfold Scanner.detect_with, bind, ret.
  destruct (run_probe send cl_te url method headers timeout verbose w) as [[[b|]|e] w1];
    try reflexivity.
  destruct (run_probe send te_cl url method headers timeout verbose w1) as [[[b|]|e] w2];
    try reflexivity.
  destruct (run_probe send te_te url method headers timeout verbose w2) as [[[b|]|e] w3];
    reflexivity.
Qed.

(** With the header string absent or an object, every block falls through
    on the empty result, so the scan ends on its last line. *)
Lemma detect_http_smuggling_absent_or_object url method data headers timeout verbose w :
  absent_or_object headers ->
  let failed := (ERROR, UnexpectedError type_error_not_dict) in
  detect_http_smuggling url method data headers timeout verbose w =
    (Ok false, mk_world (sent w) (logs w ++ [failed; failed; failed])) /\
  probes_run send_request all_probes url method headers timeout verbose w =
    [CL_TE; TE_CL; TE_TE].
Proof.
  intros H failed.
  assert (step : forall p w0, In p all_probes ->
            run_probe send_request p url method headers timeout verbose w0 =
            (Ok None, add_log w0 ERROR (UnexpectedError type_error_not_dict))).
  { intros p w0 Hp. rewrite run_probe_send_request by now apply all_probes_headers.
    destruct (merged_headers_ok p headers w0 H) as (h & -> & _). reflexivity. }
  split.
  - unfold Scanner.detect_http_smuggling. rewrite detect_with_unfold.
    rewrite !step by (simpl; auto). unfold add_log; cbn [sent logs].
    now rewrite <- !app_assoc.
  - cbn [Scanner.probes_run all_probes].
    rewrite !step by (simpl; auto). reflexivity.
Qed.

(** C1 -- code defect.  With a server that echoes the marker in every
    response body, and the header string absent or a JSON object, the scan
    should answer True at its first probe.  The code answers False and puts
    no request on the network: each probe hands its header dict to
    [send_request], which gives it to [json.loads], and the [TypeError] that
    follows is logged and turned into the empty result. *)
Theorem scan_of_echoing_server_finds_nothing url method data headers timeout verbose w :
  (forall history rq, exists r,
      network history rq = inr r /\ status_code r = 200 /\
      str_contains sentinel (text r) = true) ->
  absent_or_object headers ->
  exists w',
    detect_http_smuggling url method data headers timeout verbose w = (Ok false, w') /\
    sent w' = sent w.
Proof.
  intros _ H.
  destruct (detect_http_smuggling_absent_or_object url method data headers timeout verbose w H)
    as [E _].
  eexists. split; [exact E|reflexivity].
Qed.

(** C2 -- code defect.  Called with a header mapping that has a key, as
    each probe calls it, [send_request] performs no request at all and
    returns [(None, None, None)], whatever the server would have answered. *)
Theorem send_request_header_mapping_sends_nothing url method data kv d timeout verbose w :
  send_request url method data (PDict (kv :: d)) timeout verbose w =
  (Ok [PNone; PNone; PNone],
   mk_world (sent w) (logs w ++ [(ERROR, UnexpectedError type_error_not_dict)])).
Proof. apply send_request_dict. discriminate. Qed.

(** C8 -- code defect.  On a header string that is not JSON,
    [send_request] logs the error and sends nothing, but what it returns is
    the pair [(None, None)], not the empty triple of its other failure
    paths. *)
Theorem send_request_malformed_headers_pair url method data headers msg timeout verbose w :
  malformed headers msg ->
  send_request url method data headers timeout verbose w =
  (Ok [PNone; PNone],
   mk_world (sent w)
     (logs w ++ [(ERROR, InvalidJSONHeaders (mk_exn JSONDecodeError msg))])).
Proof.
  intros (s & -> & Hs & H).
  unfold Scanner.send_request, try_except, try_except_else, json_loads_py.
  cbn [truthy]. destruct (String.eqb_spec s ""); [contradiction|]. cbn [negb].
  rewrite H. reflexivity.
Qed.

(** C3 -- amended.  When the custom header string is there and is not
    JSON, the scan logs the error once, sends nothing, and returns False
    from its first block: CL.TE is the only probe entered, whatever the
    Request Sender would do. *)
Theorem malformed_headers_end_the_scan send url method data headers msg timeout verbose w :
  malformed headers msg ->
  detect_with send url method data headers timeout verbose w =
    (Ok false,
     mk_world (sent w)
       (logs w ++ [(ERROR, InvalidJSONHeaders (mk_exn JSONDecodeError msg))])) /\
  probes_run send all_probes url method headers timeout verbose w = [CL_TE].
Proof.
  intros H.
  assert (E : run_probe send cl_te url method headers timeout verbose w =
              (Ok (Some false),
               add_log w ERROR (InvalidJSONHeaders (mk_exn JSONDecodeError msg)))).
  { rewrite run_probe_unfold, (merged_headers_malformed _ _ msg) by exact H.
    reflexivity. }
  split.
  - rewrite detect_with_unfold, E. reflexivity.
  - cbn [Scanner.probes_run all_probes]. rewrite E. reflexivity.
Qed.

(** *** The executor, for any Request Sender *)

Lemma check_response_sent p status resp_text w :
  sent (snd (check_response p status resp_text w)) = sent w.
Proof.
  unfold check_response, bind, lift, raise, ret, log.
  destruct (truthy status && truthy resp_text); [|reflexivity].
  destruct (py_in sentinel resp_text) as [e|[|]]; reflexivity.
Qed.

(** On a triple that has a body, a block ends in one of two ways. *)
Lemma check_response_cases p status body w :
  body = PNone \/ (exists s, body = PStr s) ->
  check_response p status body w =
    (Ok (Some true), add_log w WARNING (VulnerabilityDetected (probe_name p))) \/
  exists w', check_response p status body w = (Ok None, w').
Proof.
  unfold check_response, bind, lift, ret, log, add_log.
  intros [->|(s & ->)].
  - rewrite andb_false_r. eauto.
  - destruct (truthy status && truthy (PStr s)); [|eauto].
    cbn. destruct (str_contains sentinel s); eauto.
Qed.

Lemma run_probe_cases send p url method headers timeout verbose w :
  answers_with_triple send -> absent_or_object headers ->
  exists w',
    run_probe send p url method headers timeout verbose w = (Ok (Some true), w') \/
    run_probe send p url method headers timeout verbose w = (Ok None, w').
Proof.
  intros Hsend H. rewrite run_probe_unfold.
  destruct (merged_headers_ok p headers w H) as (h & -> & _).
  destruct (Hsend url method (PStr (probe_data p)) h timeout verbose w)
    as (status & hdrs & body & w1 & E & Hbody).
  unfold bind. rewrite E. cbn.
  destruct (check_response_cases p status body w1 Hbody) as [->|(w2 & ->)]; eauto.
Qed.

(** C4 -- amended.  The blocks are entered in the order CL.TE, TE.CL,
    TE.TE; when a block marks its probe as detected, the scan returns True
    in the world that block left, and no later block is entered; and when
    the custom header string is absent or a JSON object and no block marks
    a detection, the three blocks are all run and the scan returns False.
    This holds for every Request Sender that keeps its contract, the
    script's own among them. *)
Theorem probes_run_in_order_until_detection send url method data headers timeout verbose w :
  (exists n, (1 <= n <= 3)%nat /\
     probes_run send all_probes url method headers timeout verbose w =
     firstn n [CL_TE; TE_CL; TE_TE]) /\
  (forall n p w1 w2,
     nth_error all_probes n = Some p ->
     fall_through send (firstn n all_probes) url method headers timeout verbose w = Some w1 ->
     run_probe send p url method headers timeout verbose w1 = (Ok (Some true), w2) ->
     detect_with send url method data headers timeout verbose w = (Ok true, w2) /\
     probes_run send all_probes url method headers timeout verbose w =
     firstn (S n) [CL_TE; TE_CL; TE_TE]) /\
  (answers_with_triple send -> absent_or_object headers ->
   (forall n p w1 w2,
      nth_error all_probes n = Some p ->
      fall_through send (firstn n all_probes) url method headers timeout verbose w = Some w1 ->
      run_probe send p url method headers timeout verbose w1 <> (Ok (Some true), w2)) ->
   exists w',
     detect_with send url method data headers timeout verbose w = (Ok false, w') /\
     probes_run send all_probes url method headers timeout verbose w =
     [CL_TE; TE_CL; TE_TE]).
Proof.
  rewrite detect_with_unfold.
  cbn [Scanner.probes_run Scanner.fall_through all_probes probe_name cl_te te_cl te_te].
  fold cl_te te_cl te_te.
  split; [|split].
  - destruct (run_probe send cl_te url method headers timeout verbose w) as [[[b|]|e] w1];
      try (exists 1%nat; split; [lia|reflexivity]).
    destruct (run_probe send te_cl url method headers timeout verbose w1) as [[[b|]|e] w2];
      try (exists 2%nat; split; [lia|reflexivity]).
    exists 3%nat; split; [lia|].
    destruct (run_probe send te_te url method headers timeout verbose w2) as [[[b|]|e] w3];
      reflexivity.
  - intros [|[|[|n]]] p w1 w2 Hp Hw Hr; cbn in Hp;
      try (destruct n; discriminate);
      apply (f_equal (fun o => match o with Some q => q | None => p end)) in Hp;
      subst p; cbn [firstn Scanner.fall_through all_probes] in Hw.
    + injection Hw as <-. rewrite Hr. split; reflexivity.
    + destruct (run_probe send cl_te url method headers timeout verbose w)
        as [[[b|]|e] w0]; try discriminate.
      injection Hw as <-. rewrite Hr. split; reflexivity.
    + destruct (run_probe send cl_te url method headers timeout verbose w)
        as [[[b|]|e] w0]; try discriminate.
      destruct (run_probe send te_cl url method headers timeout verbose w0)
        as [[[b|]|e] w0']; try discriminate.
      injection Hw as <-. rewrite Hr. split; reflexivity.
  - intros Hsend H Hno.
    destruct (run_probe_cases send cl_te url method headers timeout verbose w Hsend H)
      as (w1 & [E1|E1]).
    { now destruct (Hno 0%nat cl_te w w1 eq_refl eq_refl). }
    rewrite E1 in *.
    destruct (run_probe_cases send te_cl url method headers timeout verbose w1 Hsend H)
      as (w2 & [E2|E2]).
    { destruct (Hno 1%nat te_cl w1 w2 eq_refl); [|exact E2].
      cbn [firstn Scanner.fall_through all_probes]. now rewrite E1. }
    rewrite E2 in *.
    destruct (run_probe_cases send te_te url method headers timeout verbose w2 Hsend H)
      as (w3 & [E3|E3]).
    { destruct (Hno 2%nat te_te w2 w3 eq_refl); [|exact E3].
      cbn [firstn Scanner.fall_through all_probes]. now rewrite E1, E2. }
    rewrite E3. eauto.
Qed.

(** The script's own [send_request] keeps the contract on a header dict. *)
Lemma send_request_answers_with_triple : answers_with_triple send_request.
Proof.
  intros url method data d timeout verbose w. destruct d as [|kv d].
  - change (send_request url method data (PDict []) timeout verbose w) with
      (try_except (send_request_perform network url method data (PDict []) timeout verbose)
         (fun e =>
            if is_RequestException e
            then Some (log ERROR (RequestFailed e) ;; ret [PNone; PNone; PNone])%py
            else Some (log ERROR (UnexpectedError e) ;; ret [PNone; PNone; PNone])%py) w).
    destruct (send_request_perform_caught url method data (PDict []) timeout verbose w)
      as (t & w' & -> & _ & [->|(r & _ & _ & ->)]); eauto 10.
  - rewrite send_request_dict by discriminate. eauto 10.
Qed.

(** *** What a block hands to the Request Sender *)

Lemma key_eqb_str_r k name : key_eqb k (PStr name) = true -> k = PStr name.
Proof.
  destruct k as [ | b | z | f | s | l | d ]; cbn; try discriminate.
  - destruct f; discriminate.
  - intros H. apply String.eqb_eq in H. now subst.
Qed.

Lemma dict_get_setitem name k v d :
  dict_get (PStr name) (dict_setitem k v d) =
  if key_eqb k (PStr name) then Some v else dict_get (PStr name) d.
Proof.
  induction d as [|[k' v'] d IH]; cbn [dict_setitem dict_get].
  - reflexivity.
  - destruct (key_eqb k' k) eqn:Ek; cbn [dict_get].
    + destruct (key_eqb k' (PStr name)) eqn:E1.
      * apply key_eqb_str_r in E1. subst k'. cbn in Ek.
        destruct k; try discriminate. cbn. now rewrite String.eqb_sym, Ek.
      * destruct (key_eqb k (PStr name)) eqn:E2; [|reflexivity].
        apply key_eqb_str_r in E2. subst k.
        destruct k'; cbn in Ek, E1; try discriminate; congruence.
    + rewrite IH.
      destruct (key_eqb k' (PStr name)) eqn:E1, (key_eqb k (PStr name)) eqn:E2;
        try reflexivity.
      apply key_eqb_str_r in E1, E2. subst k k'. cbn in Ek.
      now rewrite String.eqb_refl in Ek.
Qed.

Lemma dict_get_absent name d :
  existsb (fun kv => key_eqb (PStr name) (fst kv)) d = false ->
  dict_get (PStr name) d = None.
Proof.
  induction d as [|[k v] d IH]; cbn; [reflexivity|].
  intros H. apply orb_false_iff in H as [H1 H2].
  destruct (key_eqb k (PStr name)) eqn:E; [|auto].
  apply key_eqb_str_r in E. subst k. cbn in H1. now rewrite String.eqb_refl in H1.
Qed.

(** Merging: a key of the custom object takes the custom value, any other
    key keeps the value of the fixed dict. *)
Lemma dict_get_merge name o : forall d,
  unique_keys o = true ->
  dict_get (PStr name) (dict_merge d o) =
  match dict_get (PStr name) o with
  | Some v => Some v
  | None => dict_get (PStr name) d
  end.
Proof.
  unfold dict_merge.
  induction o as [|[k v] o IH]; intros d U; cbn [fold_left dict_get fst snd].
  - reflexivity.
  - cbn in U. apply andb_true_iff in U as [U1 U2]. apply negb_true_iff in U1.
    rewrite IH by exact U2. rewrite dict_get_setitem.
    destruct (key_eqb k (PStr name)) eqn:E.
    + apply key_eqb_str_r in E. subst k. now rewrite dict_get_absent.
    + reflexivity.
Qed.

Lemma unpack3_world t w : snd (unpack3 t w) = w.
Proof. destruct t as [|a [|b [|c [|x t]]]]; reflexivity. Qed.

(** A block run with a recording sender: when the header merge gives a
    dict, one call is recorded, with that dict and the probe's own body;
    when it raises, no call is recorded and the block does not fall
    through. *)
Lemma run_probe_spy answer p url method headers timeout verbose w :
  match merged_headers p headers w with
  | (Ok h, _) =>
      sent (snd (run_probe (Mock.spy answer) p url method headers timeout verbose w)) =
      (sent w ++ [mk_request method url (PStr (probe_data p)) (PDict h) timeout false])%list
  | (Raise _, _) =>
      sent (snd (run_probe (Mock.spy answer) p url method headers timeout verbose w)) = sent w /\
      fst (run_probe (Mock.spy answer) p url method headers timeout verbose w) <> Ok None
  end.
Proof.
  rewrite run_probe_unfold.
  destruct (merged_headers p headers w) as [[h|e] w0].
  - unfold bind, Mock.spy.
    set (w1 := mk_world _ _).
    pose proof (unpack3_world (answer (mk_request method url (PStr (probe_data p)) (PDict h)
                                         timeout false)) w1) as Hu.
    destruct (unpack3 _ w1) as [[[[status hdrs] body]|e] w2]; cbn in Hu; subst w2.
    + now rewrite check_response_sent.
    + reflexivity.
  - destruct (is_JSONDecodeError e); split; (discriminate || reflexivity).
Qed.

(** C7 -- amended.  When the custom header string is the JSON text of an
    object [o] (which, as a dict, holds each key once), the block of every
    probe calls the Request Sender with the probe's fixed header dict
    merged with that object: a recording sender sees exactly that dict, a
    header the object names has the object's value, and any other header
    keeps its fixed value. *)
Theorem custom_headers_merged_before_sending send p url method headers s o
    timeout verbose w :
  headers = PStr s -> s <> "" -> json_loads s = inr (PDict o) -> unique_keys o = true ->
  let merged := dict_merge (probe_headers p) o in
  run_probe send p url method headers timeout verbose w =
    (t <- send url method (PStr (probe_data p)) (PDict merged) timeout verbose ;;
     r <- unpack3 t ;;
     let '(status, _, resp_text) := r in
     check_response p status resp_text)%py w /\
  (forall answer,
     sent (snd (run_probe (Mock.spy answer) p url method headers timeout verbose w)) =
     (sent w ++ [mk_request method url (PStr (probe_data p)) (PDict merged) timeout false])%list) /\
  (forall name,
     dict_get (PStr name) merged =
     match dict_get (PStr name) o with
     | Some v => Some v
     | None => dict_get (PStr name) (probe_headers p)
     end).
Proof.
  intros -> Hs Ho U merged.
  assert (E : merged_headers p (PStr s) w = (Ok merged, w)).
  { rewrite (merged_headers_object p s o w Ho). cbn [truthy].
    destruct (String.eqb_spec s ""); [contradiction|reflexivity]. }
  split; [|split].
  - rewrite run_probe_unfold, E. reflexivity.
  - intros answer.
    pose proof (run_probe_spy answer p url method (PStr s) timeout verbose w) as H.
    rewrite E in H. exact H.
  - intros name. now apply dict_get_merge.
Qed.

(** Two senders that answer alike on a probe's fixed body run its block
    alike. *)
Lemma run_probe_agree send send' p url method headers timeout verbose w :
  (forall hs w0,
     send' url method (PStr (probe_data p)) hs timeout verbose w0 =
     send url method (PStr (probe_data p)) hs timeout verbose w0) ->
  run_probe send' p url method headers timeout verbose w =
  run_probe send p url method headers timeout verbose w.
Proof.
  intros H. rewrite !run_probe_unfold.
  destruct (merged_headers p headers w) as [[h|e] w0]; [|reflexivity].
  unfold bind. now rewrite H.
Qed.

(** C10.  The [data] argument changes nothing, and each probe sends its
    own fixed body.  First, the scan consults the Request Sender at the
    three fixed bodies only: a sender that differs from [send] anywhere
    else, and any other value of [data], give the same result, the same
    world and the same probes run.  Second, it does consult it there: when
    the header merge goes through, a recording sender sees one call for
    each probe that was run, in order, with that probe's fixed body as its
    data, the merged dict as its headers, and the URL, method and timeout
    of the scan. *)
Theorem data_argument_is_ignored send url method data headers timeout verbose w :
  (forall send' data',
     (forall p hs w0,
        In p all_probes ->
        send' url method (PStr (probe_data p)) hs timeout verbose w0 =
        send url method (PStr (probe_data p)) hs timeout verbose w0) ->
     detect_with send' url method data' headers timeout verbose w =
     detect_with send url method data headers timeout verbose w /\
     probes_run send' all_probes url method headers timeout verbose w =
     probes_run send all_probes url method headers timeout verbose w) /\
  (forall answer hs,
     (forall p w0, merged_headers p headers w0 = (Ok (hs p), w0)) ->
     sent (snd (detect_with (Mock.spy answer) url method data headers timeout verbose w)) =
     (sent w ++
      map (fun p => mk_request method url (PStr (probe_data p)) (PDict (hs p)) timeout false)
        (firstn
           (List.length
              (probes_run (Mock.spy answer) all_probes url method headers timeout verbose w))
           all_probes))%list).
Proof.
  split.
  - intros send' data' H.
    assert (E : forall p w0, In p all_probes ->
              run_probe send' p url method headers timeout verbose w0 =
              run_probe send p url method headers timeout verbose w0).
    { intros p w0 Hp. apply run_probe_agree. intros hs w1. now apply H. }
    rewrite !detect_with_unfold. cbn [Scanner.probes_run all_probes].
    rewrite (E cl_te) by (simpl; auto).
    destruct (run_probe send cl_te url method headers timeout verbose w)
      as [[[b|]|e] w1]; try (split; reflexivity).
    rewrite (E te_cl) by (simpl; auto).
    destruct (run_probe send te_cl url method headers timeout verbose w1)
      as [[[b|]|e] w2]; try (split; reflexivity).
    rewrite (E te_te) by (simpl; auto).
    split; reflexivity.
  - intros answer hs Hm.
    rewrite detect_with_unfold. cbn [Scanner.probes_run all_probes].
    pose proof (run_probe_spy answer cl_te url method headers timeout verbose w) as H1.
    rewrite (Hm cl_te w) in H1.
    destruct (run_probe (Mock.spy answer) cl_te url method headers timeout verbose w)
      as [[[b|]|e] w1]; cbn [snd] in H1; try exact H1.
    pose proof (run_probe_spy answer te_cl url method headers timeout verbose w1) as H2.
    rewrite (Hm te_cl w1), H1, <- app_assoc in H2. cbn [app] in H2.
    destruct (run_probe (Mock.spy answer) te_cl url method headers timeout verbose w1)
      as [[[b|]|e] w2]; cbn [snd] in H2; try exact H2.
    pose proof (run_probe_spy answer te_te url method headers timeout verbose w2) as H3.
    rewrite (Hm te_te w2), H2, <- app_assoc in H3. cbn [app] in H3.
    destruct (run_probe (Mock.spy answer) te_te url method headers timeout verbose w2)
      as [[[b|]|e] w3]; exact H3.
Qed.

(** *** The URL validator and the orchestrator *)

Abbreviation is_valid_url := (is_valid_url urlparse).
Abbreviation main := (main json_loads urlparse network).

Lemma is_valid_url_unfold url w :
  is_valid_url url w =
  (Ok match urlparse url with
      | inr result => py_all [PStr (scheme result); PStr (netloc result)]
      | inl _ => false
      end, w).
Proof.
  unfold Scanner.is_valid_url, try_except, try_except_else, bind, lift, raise, ret.
  destruct (urlparse url); reflexivity.
Qed.

(** C5.  [is_valid_url] answers True exactly when [urlparse] gives a
    result whose scheme and network location are both non-empty; when
    [urlparse] raises it answers False; it never raises, and it leaves the
    world as it found it: nothing is sent, nothing is logged. *)
Theorem is_valid_url_spec url w :
  exists b,
    is_valid_url url w = (Ok b, w) /\
    (b = true <->
     exists r, urlparse url = inr r /\ scheme r <> "" /\ netloc r <> "") /\
    (forall e, urlparse url = inl e -> b = false).
Proof.
  rewrite is_valid_url_unfold.
  destruct (urlparse url) as [e|r]; cbn.
  - exists false. split; [reflexivity|]. split; [|reflexivity].
    split; [discriminate|]. intros (r & [=] & _).
  - eexists. split; [reflexivity|]. split; [|discriminate].
    rewrite andb_true_r, andb_true_iff, !negb_true_iff. split.
    + intros [Hs Hn]. exists r. repeat split.
      * intros E. rewrite E in Hs. discriminate.
      * intros E. rewrite E in Hn. discriminate.
    + intros (r' & [= <-] & Hs & Hn). split; apply String.eqb_neq; assumption.
Qed.

Lemma main_unfold args w :
  main args w =
  match is_valid_url (arg_url args) w with
  | (Ok false, w0) => (Ok 1, add_log w0 ERROR InvalidURL)
  | (Ok true, w0) =>
      match detect_http_smuggling (arg_url args) (arg_method args) (arg_data args)
              (arg_headers args) (arg_timeout args) (arg_verbose args)
              (add_log w0 INFO (StartingScan (arg_url args))) with
      | (Ok found, w1) =>
          (Ok 0, add_log w1 INFO
                   (if found then ScanCompletedFound else ScanCompletedNotFound))
      | (Raise e, w1) => (Ok 1, add_log w1 ERROR (ScanError e))
      end
  | (Raise e, w0) => (Raise e, w0)
  end.
Proof.
  unfold Scanner.main, bind.
  destruct (is_valid_url (arg_url args) w) as [[[|]|e] w0]; cbn [negb]; try reflexivity.
  unfold try_except, try_except_else, bind, log, ret, add_log. cbn beta iota.
  destruct (detect_http_smuggling _ _ _ _ _ _ _) as [[[|]|e] w1]; reflexivity.
Qed.

(** C6.  The exit status of [main]: 1 when the URL is not valid, and then
    nothing was sent; otherwise 0 when the scan returns, whatever it
    returns, and 1 when the scan raises. *)
Theorem main_exit_status args w :
  let started := add_log w INFO (StartingScan (arg_url args)) in
  let scan := detect_http_smuggling (arg_url args) (arg_method args) (arg_data args)
                (arg_headers args) (arg_timeout args) (arg_verbose args) started in
  match fst (is_valid_url (arg_url args) w), fst scan with
  | Ok false, _ =>
      main args w = (Ok 1, add_log w ERROR InvalidURL) /\
      sent (snd (main args w)) = sent w
  | Ok true, Ok found =>
      main args w =
      (Ok 0, add_log (snd scan) INFO
               (if found then ScanCompletedFound else ScanCompletedNotFound))
  | Ok true, Raise e =>
      main args w = (Ok 1, add_log (snd scan) ERROR (ScanError e))
  | Raise _, _ => False
  end.
Proof.
  cbv zeta. rewrite main_unfold, is_valid_url_unfold. cbn [fst].
  destruct (match urlparse (arg_url args) with inr _ => _ | inl _ => _ end).
  - destruct (detect_http_smuggling _ _ _ _ _ _ _) as [[found|e] w1]; reflexivity.
  - split; reflexivity.
Qed.

(** C9.  When the request is made and the response has a status from 400
    to 599, [send_request] returns [(None, None, None)], whatever the body
    holds; and a probe whose Request Sender answers with the empty result
    is never marked as detected. *)
Theorem error_status_gives_empty_result url method data headers timeout verbose w h r :
  request_headers headers = Some h ->
  network (sent w) (mk_request method url data h timeout false) = inr r ->
  400 <= status_code r < 600 ->
  (exists w',
     send_request url method data headers timeout verbose w =
       (Ok [PNone; PNone; PNone], w') /\
     sent w' = (sent w ++ [mk_request method url data h timeout false])%list) /\
  (forall send p url' method' headers' timeout' verbose' w0,
     (forall hs w1, exists w2,
        send url' method' (PStr (probe_data p)) hs timeout' verbose' w1 =
        (Ok [PNone; PNone; PNone], w2)) ->
     fst (run_probe send p url' method' headers' timeout' verbose' w0) <> Ok (Some true)).
Proof.
  intros Hh N Hr. split.
  - destruct (send_request_perform_answer url method data h timeout verbose w r N)
      as (w' & E & Hs).
    replace ((400 <=? status_code r) && (status_code r <? 600)) with true in E
      by (symmetry; apply andb_true_iff; split; [apply Z.leb_le|apply Z.ltb_lt]; lia).
    exists (add_log w' ERROR
              (RequestFailed (mk_exn HTTPError
                 (string_of_Z (status_code r) ++
                  (if status_code r <? 500 then " Client Error: " else " Server Error: ") ++
                  reason r ++ " for url: " ++ resp_url r)))).
    split; [|exact Hs].
    unfold Scanner.send_request, Scanner.request_headers in *.
    destruct (truthy headers).
    + destruct headers as [ | | | | s | | ]; try discriminate.
      unfold try_except at 1. unfold try_except_else at 1.
      unfold try_except_else at 1. unfold json_loads_py.
      destruct (json_loads s) as [msg|v]; [discriminate|].
      injection Hh as ->. cbn. rewrite E. reflexivity.
    + injection Hh as ->. unfold try_except, try_except_else. rewrite E. reflexivity.
  - intros send p url' method' headers' timeout' verbose' w0 Hsend.
    rewrite run_probe_unfold.
    destruct (merged_headers p headers' w0) as [[hs|e] w1].
    + unfold bind. destruct (Hsend (PDict hs) w0) as (w2 & ->). cbn. discriminate.
    + destruct (is_JSONDecodeError e); cbn; discriminate.
Qed.

End Properties.

(** ** Examples *)

Import Mock.

Lemma echo_echoes : forall history rq, exists r,
  echo history rq = inr r /\ status_code r = 200 /\ str_contains sentinel (text r) = true.
Proof. intros. eexists. repeat split. Qed.

Lemma not_json_malformed : malformed json_loads (PStr "not json") (exn_msg decode_error).
Proof. exists "not json". repeat split. discriminate. Qed.

Lemma scan_of_echoing_server_example :
  exists w',
    detect_http_smuggling json_loads echo "http://example.com" "GET" PNone PNone 10 false
      empty_world = (Ok false, w') /\
    sent w' = sent empty_world.
Proof.
  apply (scan_of_echoing_server_finds_nothing json_loads echo).
  - exact echo_echoes.
  - now left.
Defined.

Lemma send_request_malformed_headers_example :
  send_request json_loads echo "http://example.com" "GET" PNone (PStr "not json") 10 false
    empty_world =
  (Ok [PNone; PNone], mk_world [] [(ERROR, InvalidJSONHeaders decode_error)]).
Proof.
  exact (send_request_malformed_headers_pair json_loads echo "http://example.com" "GET"
           PNone (PStr "not json") _ 10 false empty_world not_json_malformed).
Defined.

Lemma malformed_headers_end_the_scan_example :
  detect_with json_loads (send_request json_loads echo) "http://example.com" "GET" PNone
    (PStr "not json") 10 false empty_world =
    (Ok false, mk_world [] [(ERROR, InvalidJSONHeaders decode_error)]) /\
  probes_run json_loads (send_request json_loads echo) all_probes "http://example.com" "GET"
    (PStr "not json") 10 false empty_world = [CL_TE].
Proof.
  exact (malformed_headers_end_the_scan json_loads (send_request json_loads echo)
           "http://example.com" "GET" PNone (PStr "not json") _ 10 false empty_world
           not_json_malformed).
Defined.

(** C3 as stated fails: with a header string that is not JSON, TE.CL and
    TE.TE are not run after CL.TE; the scan is over, with one error
    logged. *)
Lemma malformed_headers_skip_later_probes :
  probes_run json_loads (send_request json_loads echo) all_probes "http://example.com" "GET"
    (PStr "not json") 10 false empty_world = [CL_TE] /\
  run_probe json_loads (send_request json_loads echo) cl_te "http://example.com" "GET"
    (PStr "not json") 10 false empty_world =
    (Ok (Some false), mk_world [] [(ERROR, InvalidJSONHeaders decode_error)]).
Proof. split; reflexivity. Qed.

(** C4 as stated fails: with a header string that is not JSON and a server
    that never echoes the marker, no probe detects anything and the result
    is False, yet one probe was run, not three. *)
Lemma undetected_scan_runs_one_probe :
  detect_http_smuggling json_loads quiet "http://example.com" "GET" PNone (PStr "not json")
    10 false empty_world =
    (Ok false, mk_world [] [(ERROR, InvalidJSONHeaders decode_error)]) /\
  probes_run json_loads (send_request json_loads quiet) all_probes "http://example.com" "GET"
    (PStr "not json") 10 false empty_world = [CL_TE].
Proof. split; reflexivity. Qed.

Lemma spy_answers_with_triple answer :
  (forall rq, exists status hdrs body,
      answer rq = [status; hdrs; body] /\ (body = PNone \/ exists s, body = PStr s)) ->
  answers_with_triple (spy answer).
Proof.
  intros H url method data d timeout verbose w. unfold spy.
  destruct (H (mk_request method url data (PDict d) timeout false))
    as (status & hdrs & body & -> & Hb).
  eauto 10.
Qed.

Lemma answer_ok_never_detected n p w1 w2 :
  nth_error all_probes n = Some p ->
  fall_through json_loads (spy answer_ok) (firstn n all_probes) "http://example.com" "GET"
    PNone 10 false empty_world = Some w1 ->
  run_probe json_loads (spy answer_ok) p "http://example.com" "GET" PNone 10 false w1 <>
  (Ok (Some true), w2).
Proof.
  intros Hp _.
  destruct n as [|[|[|n]]]; cbn in Hp; try (destruct n; discriminate);
    apply (f_equal (fun o => match o with Some q => q | None => p end)) in Hp;
    subst p; discriminate.
Qed.

Lemma probes_run_in_order_until_detection_example :
  (exists w2,
     detect_with json_loads (spy answer_te_cl) "http://example.com" "GET" PNone PNone
       10 false empty_world = (Ok true, w2) /\
     probes_run json_loads (spy answer_te_cl) all_probes "http://example.com" "GET" PNone
       10 false empty_world = [CL_TE; TE_CL]) /\
  (exists w3,
     detect_with json_loads (spy answer_ok) "http://example.com" "GET" PNone PNone
       10 false empty_world = (Ok false, w3) /\
     probes_run json_loads (spy answer_ok) all_probes "http://example.com" "GET" PNone
       10 false empty_world = [CL_TE; TE_CL; TE_TE]) /\
  (exists w3,
     detect_http_smuggling json_loads quiet "http://example.com" "GET" PNone
       (PStr xfoo_json) 10 false empty_world = (Ok false, w3) /\
     probes_run json_loads (send_request json_loads quiet) all_probes "http://example.com"
       "GET" (PStr xfoo_json) 10 false empty_world = [CL_TE; TE_CL; TE_TE]).
Proof.
  split; [|split].
  - destruct (probes_run_in_order_until_detection json_loads (spy answer_te_cl)
                "http://example.com" "GET" PNone PNone 10 false empty_world)
      as (_ & H & _).
    eexists. eapply (H 1%nat te_cl); reflexivity.
  - destruct (probes_run_in_order_until_detection json_loads (spy answer_ok)
                "http://example.com" "GET" PNone PNone 10 false empty_world)
      as (_ & _ & H).
    apply H.
    + apply spy_answers_with_triple. intros rq. do 3 eexists. split; [reflexivity|].
      right. now exists "ok".
    + now left.
    + exact answer_ok_never_detected.
  - destruct (probes_run_in_order_until_detection json_loads (send_request json_loads quiet)
                "http://example.com" "GET" PNone (PStr xfoo_json) 10 false empty_world)
      as (_ & _ & H).
    apply H.
    + apply send_request_answers_with_triple.
    + right. now exists xfoo_json, [(PStr "X-Foo", PStr "bar")].
    + intros n p w1 w2 Hp _ E.
      apply (run_probe_send_request_never_detects json_loads quiet p "http://example.com"
               "GET" (PStr xfoo_json) 10 false w1).
      * eapply nth_error_In, Hp.
      * now rewrite E.
Defined.

(** C7 as stated fails: ["3"] is valid JSON, and the block of CL.TE
    merges nothing and hands nothing to the Request Sender; the
    [TypeError] of [dict.update] leaves the scan. *)
Lemma json_number_is_not_merged :
  run_probe json_loads (spy answer_ok) cl_te "http://example.com" "GET" (PStr "3")
    10 false empty_world =
  (Raise (mk_exn TypeError "'int' object is not iterable"), empty_world).
Proof. reflexivity. Qed.

Lemma custom_headers_merged_example :
  sent (snd (run_probe json_loads (spy answer_ok) cl_te "http://example.com" "GET"
               (PStr xfoo_json) 10 false empty_world)) =
    [mk_request "GET" "http://example.com" (PStr (probe_data cl_te))
       (PDict [(PStr "Content-Length", PStr "41");
               (PStr "Transfer-Encoding", PStr "chunked");
               (PStr "X-Foo", PStr "bar")])
       10 false] /\
  dict_get (PStr "X-Foo")
    (dict_merge (probe_headers cl_te) [(PStr "X-Foo", PStr "bar")]) = Some (PStr "bar").
Proof.
  destruct (custom_headers_merged_before_sending json_loads (spy answer_ok) cl_te
              "http://example.com" "GET" (PStr xfoo_json) xfoo_json
              [(PStr "X-Foo", PStr "bar")] 10 false empty_world)
    as (_ & H1 & H2); try reflexivity; [discriminate|].
  split; [exact (H1 answer_ok)|exact (H2 "X-Foo")].
Defined.

Lemma error_status_example :
  exists w',
    send_request json_loads not_found "http://example.com" "GET" PNone PNone 10 false
      empty_world = (Ok [PNone; PNone; PNone], w') /\
    sent w' = [mk_request "GET" "http://example.com" PNone PNone 10 false].
Proof.
  refine (proj1 (error_status_gives_empty_result json_loads not_found
                   "http://example.com" "GET" PNone PNone 10 false empty_world PNone
                   (reply 404 "Not Found" sentinel
                      (mk_request "GET" "http://example.com" PNone PNone 10 false))
                   eq_refl eq_refl _)).
  cbn. lia.
Defined.

(** The three ways [main] can end: a string that is no URL, a scan that
    returns, and a scan that raises (the custom headers are the JSON
    number 3). *)
Lemma main_exit_status_example :
  (main json_loads urlparse quiet
     (mk_args "not a url" "GET" PNone PNone 10 false) empty_world =
     (Ok 1, mk_world [] [(ERROR, InvalidURL)]) /\
   sent (snd (main json_loads urlparse quiet
                (mk_args "not a url" "GET" PNone PNone 10 false) empty_world)) = []) /\
  fst (main json_loads urlparse quiet (args0 PNone) empty_world) = Ok 0 /\
  fst (main json_loads urlparse quiet (args0 (PStr "3")) empty_world) = Ok 1.
Proof.
  split; [|split].
  - exact (main_exit_status json_loads urlparse quiet
             (mk_args "not a url" "GET" PNone PNone 10 false) empty_world).
  - exact (f_equal fst (main_exit_status json_loads urlparse quiet (args0 PNone) empty_world)).
  - exact (f_equal fst
             (main_exit_status json_loads urlparse quiet (args0 (PStr "3")) empty_world)).
Defined.

Example is_valid_url_examples :
  is_valid_url urlparse "http://example.com" empty_world = (Ok true, empty_world) /\
  is_valid_url urlparse "not a url" empty_world = (Ok false, empty_world).
Proof. split; reflexivity. Qed.

(** A header mapping given to [send_request] while the server would
    echo the marker: nothing is sent. *)
Lemma send_request_header_mapping_example :
  send_request json_loads echo "http://example.com" "GET" (PStr (probe_data cl_te))
    (PDict (probe_headers cl_te)) 10 false empty_world =
  (Ok [PNone; PNone; PNone], mk_world [] [(ERROR, UnexpectedError type_error_not_dict)]).
Proof.
  exact (send_request_header_mapping_sends_nothing json_loads echo "http://example.com"
           "GET" (PStr (probe_data cl_te)) (PStr "Content-Length", PStr "41")
           [(PStr "Transfer-Encoding", PStr "chunked")] 10 false empty_world).
Defined.

(** ** Further properties of the script *)

Section More.

Variable json_loads : string -> string + pyval.
Variable urlparse : string -> pyexn + ParseResult.
Variable network : list request -> request -> pyexn + response.

Abbreviation send_request := (Scanner.send_request json_loads network).
Abbreviation detect_http_smuggling := (Scanner.detect_http_smuggling json_loads network).
Abbreviation merged_headers := (Scanner.merged_headers json_loads).
Abbreviation run_probe := (Scanner.run_probe json_loads).
Abbreviation detect_with := (Scanner.detect_with json_loads).
Abbreviation probes_run := (Scanner.probes_run json_loads).
Abbreviation absent_or_object := (Scanner.absent_or_object json_loads).
Abbreviation malformed := (Scanner.malformed json_loads).
Abbreviation request_headers := (Scanner.request_headers json_loads).
Abbreviation is_valid_url := (Scanner.is_valid_url urlparse).
Abbreviation main := (Scanner.main json_loads urlparse network).

(** *** The Request Sender *)

(** When the header argument gets past the first block of [send_request],
    what is left is the request under the two outer [except] clauses. *)
Lemma send_request_resolved url method data headers h timeout verbose w :
  request_headers headers = Some h ->
  send_request url method data headers timeout verbose w =
  try_except (send_request_perform network url method data h timeout verbose)
    (fun e =>
       if is_RequestException e
       then Some (log ERROR (RequestFailed e) ;; ret [PNone; PNone; PNone])%py
       else Some (log ERROR (UnexpectedError e) ;; ret [PNone; PNone; PNone])%py) w.
Proof.
  unfold Scanner.send_request, Scanner.request_headers.
  destruct (truthy headers).
  - destruct headers as [ | | | | s | | ]; try discriminate.
    unfold try_except at 1. unfold try_except_else at 1.
    unfold try_except_else at 1. unfold json_loads_py.
    destruct (json_loads s) as [msg|v]; [discriminate|].
    intros [= ->]. reflexivity.
  - now intros [= ->].
Qed.

(** When it does not, nothing is sent. *)
Lemma send_request_unresolved url method data headers timeout verbose w :
  request_headers headers = None ->
  exists t w',
    send_request url method data headers timeout verbose w = (Ok t, w') /\
    sent w' = sent w /\ (t = [PNone; PNone] \/ t = [PNone; PNone; PNone]).
Proof.
  unfold Scanner.send_request, Scanner.request_headers.
  destruct (truthy headers); [|discriminate].
  destruct headers as [ | b | z | f | s | l | d ]; intros H;
    try (do 2 eexists; split; [reflexivity|]; split; [reflexivity|now right]).
  unfold try_except at 1. unfold try_except_else at 1.
  unfold try_except_else at 1. unfold json_loads_py.
  destruct (json_loads s) as [msg|v]; [|discriminate].
  do 2 eexists; split; [reflexivity|]; split; [reflexivity|now left].
Qed.

(** X1.  [send_request] never raises.  Either it sends nothing and returns the
    pair or the empty triple; or it makes exactly one request, with the
    resolved headers and redirects disabled, and returns the empty triple
    or the triple of a response whose status is outside 400..599. *)
Theorem send_request_never_raises url method data headers timeout verbose w :
  exists t w',
    send_request url method data headers timeout verbose w = (Ok t, w') /\
    ((sent w' = sent w /\ (t = [PNone; PNone] \/ t = [PNone; PNone; PNone])) \/
     exists h,
       request_headers headers = Some h /\
       sent w' = (sent w ++ [mk_request method url data h timeout false])%list /\
       (t = [PNone; PNone; PNone] \/
        exists r,
          network (sent w) (mk_request method url data h timeout false) = inr r /\
          ~ (400 <= status_code r < 600) /\
          t = [PInt (status_code r); PDict (resp_headers r); PStr (text r)])).
Proof.
  destruct (request_headers headers) as [h|] eqn:Hh.
  - rewrite (send_request_resolved _ _ _ _ h) by exact Hh.
    destruct (send_request_perform_caught network url method data h timeout verbose w)
      as (t & w' & E & Hs & Ht).
    exists t, w'. split; [exact E|]. right. exists h. auto.
  - destruct (send_request_unresolved url method data headers timeout verbose w Hh)
      as (t & w' & E & Hs & Ht).
    exists t, w'. split; [exact E|]. left. auto.
Qed.

(** The request with [verbose] off, step by step. *)
Lemma send_request_perform_quiet url method data headers timeout w :
  send_request_perform network url method data headers timeout false w =
  let rq := mk_request method url data headers timeout false in
  let w' := mk_world (sent w ++ [rq]) (logs w) in
  match network (sent w) rq with
  | inl e => (Raise e, w')
  | inr r =>
      if (400 <=? status_code r) && (status_code r <? 600)
      then (Raise (mk_exn HTTPError
              (string_of_Z (status_code r) ++
               (if status_code r <? 500 then " Client Error: " else " Server Error: ") ++
               reason r ++ " for url: " ++ resp_url r)), w')
      else (Ok [PInt (status_code r); PDict (resp_headers r); PStr (text r)], w')
  end.
Proof.
  unfold send_request_perform, bind, when, requests_request, raise_for_status, ret, raise.
  cbn zeta.
  destruct (network (sent w) (mk_request method url data headers timeout false)) as [e|r];
    [reflexivity|].
  destruct (400 <=? status_code r) eqn:E4, (status_code r <? 500) eqn:E5,
           (500 <=? status_code r) eqn:E6, (status_code r <? 600) eqn:E7;
    cbn; try reflexivity; lia.
Qed.

(** X2.  A response with a status outside 400..599 comes back as it is, a
    redirect among them: one request was made, with redirects disabled,
    and with [verbose] off nothing was logged. *)
Theorem send_request_returns_response url method data headers h timeout verbose w r :
  request_headers headers = Some h ->
  network (sent w) (mk_request method url data h timeout false) = inr r ->
  ~ (400 <= status_code r < 600) ->
  exists w',
    send_request url method data headers timeout verbose w =
      (Ok [PInt (status_code r); PDict (resp_headers r); PStr (text r)], w') /\
    sent w' = (sent w ++ [mk_request method url data h timeout false])%list /\
    (verbose = false -> logs w' = logs w).
Proof.
  intros Hh N Hr.
  rewrite (send_request_resolved _ _ _ _ h) by exact Hh.
  assert (C : (400 <=? status_code r) && (status_code r <? 600) = false).
  { apply andb_false_iff.
    destruct (Z.leb_spec 400 (status_code r)); [|now left].
    right. apply Z.ltb_ge. lia. }
  destruct verbose.
  - destruct (send_request_perform_answer network url method data h timeout true w r N)
      as (w' & E & Hs).
    rewrite C in E. unfold try_except, try_except_else. rewrite E.
    eexists. split; [reflexivity|]. split; [exact Hs|discriminate].
  - unfold try_except, try_except_else. rewrite send_request_perform_quiet.
    cbn zeta. rewrite N, C. eexists. split; [reflexivity|]. split; reflexivity.
Qed.

(** X3.  When [requests.request] raises, the request was made once, the empty
    triple comes back, and one error is logged: "Request failed" for a
    [RequestException], "An unexpected error occurred" for anything
    else. *)
Theorem send_request_network_error url method data headers h timeout verbose w e :
  request_headers headers = Some h ->
  network (sent w) (mk_request method url data h timeout false) = inl e ->
  exists w',
    send_request url method data headers timeout verbose w =
      (Ok [PNone; PNone; PNone], w') /\
    sent w' = (sent w ++ [mk_request method url data h timeout false])%list /\
    (verbose = false ->
     logs w' =
     (logs w ++ [(ERROR, if is_RequestException e then RequestFailed e
                         else UnexpectedError e)])%list).
Proof.
  intros Hh N.
  rewrite (send_request_resolved _ _ _ _ h) by exact Hh.
  destruct verbose.
  - destruct (send_request_perform_failure network url method data h timeout true w e N)
      as (w' & E & Hs).
    unfold try_except, try_except_else. rewrite E.
    destruct (is_RequestException e);
      (eexists; split; [reflexivity|]; split; [exact Hs|discriminate]).
  - unfold try_except, try_except_else. rewrite send_request_perform_quiet.
    cbn zeta. rewrite N.
    destruct (is_RequestException e);
      (eexists; split; [reflexivity|]; split; reflexivity).
Qed.

(** *** The scan as the script runs it *)

(** One block, run with the script's own [send_request], sends nothing
    and marks nothing. *)
Lemma run_probe_send_request_outcome p url method headers timeout verbose w :
  In p all_probes ->
  exists r w',
    run_probe send_request p url method headers timeout verbose w = (r, w') /\
    sent w' = sent w /\ r <> Ok (Some true).
Proof.
  intros Hp. rewrite run_probe_send_request by now apply all_probes_headers.
  destruct (merged_headers p headers w) as [[h|e] w0].
  - do 2 eexists. split; [reflexivity|]. split; [reflexivity|discriminate].
  - destruct (is_JSONDecodeError e);
      (do 2 eexists; split; [reflexivity|]; split; [reflexivity|discriminate]).
Qed.

Lemma detect_http_smuggling_outcome url method data headers timeout verbose w :
  exists r w',
    detect_http_smuggling url method data headers timeout verbose w = (r, w') /\
    sent w' = sent w /\ r <> Ok true.
Proof.
  unfold Scanner.detect_http_smuggling. rewrite detect_with_unfold.
  destruct (run_probe_send_request_outcome cl_te url method headers timeout verbose w)
    as (r1 & w1 & -> & S1 & N1); [simpl; auto|].
  destruct r1 as [[[|]|]|e1]; try congruence;
    try (do 2 eexists; split; [reflexivity|]; split; [exact S1|discriminate]).
  destruct (run_probe_send_request_outcome te_cl url method headers timeout verbose w1)
    as (r2 & w2 & -> & S2 & N2); [simpl; auto|]. rewrite S1 in S2.
  destruct r2 as [[[|]|]|e2]; try congruence;
    try (do 2 eexists; split; [reflexivity|]; split; [exact S2|discriminate]).
  destruct (run_probe_send_request_outcome te_te url method headers timeout verbose w2)
    as (r3 & w3 & -> & S3 & N3); [simpl; auto|]. rewrite S2 in S3.
  destruct r3 as [[[|]|]|e3]; try congruence;
    (do 2 eexists; split; [reflexivity|]; split; [exact S3|discriminate]).
Qed.

(** X4.  Whatever its arguments, the header string and the server,
    [detect_http_smuggling] puts no request on the network and never
    returns True. *)
Theorem scan_sends_nothing_and_finds_nothing url method data headers timeout verbose w :
  sent (snd (detect_http_smuggling url method data headers timeout verbose w)) = sent w /\
  fst (detect_http_smuggling url method data headers timeout verbose w) <> Ok true.
Proof.
  destruct (detect_http_smuggling_outcome url method data headers timeout verbose w)
    as (r & w' & -> & Hs & Hr).
  split; assumption.
Qed.

(** X5.  The scan reads nothing but the header string: with another server,
    URL, method, body, timeout or verbosity it returns the same value and
    leaves the same log. *)
Theorem scan_depends_on_headers_only network' url url' method method' data data'
    headers timeout timeout' verbose verbose' w :
  detect_http_smuggling url method data headers timeout verbose w =
  Scanner.detect_http_smuggling json_loads network' url' method' data' headers
    timeout' verbose' w.
Proof.
  unfold Scanner.detect_http_smuggling. rewrite !detect_with_unfold.
  assert (P : forall p, In p all_probes -> probe_headers p <> [])
    by exact all_probes_headers.
  rewrite (run_probe_send_request json_loads network cl_te),
          (run_probe_send_request json_loads network' cl_te) by (apply P; simpl; auto).
  destruct (merged_headers cl_te headers w) as [[h1|e1] w0];
    [|destruct (is_JSONDecodeError e1); reflexivity].
  rewrite (run_probe_send_request json_loads network te_cl),
          (run_probe_send_request json_loads network' te_cl) by (apply P; simpl; auto).
  destruct (merged_headers te_cl headers _) as [[h2|e2] w1];
    [|destruct (is_JSONDecodeError e2); reflexivity].
  rewrite (run_probe_send_request json_loads network te_te),
          (run_probe_send_request json_loads network' te_te) by (apply P; simpl; auto).
  destruct (merged_headers te_te headers _) as [[h3|e3] w2];
    [|destruct (is_JSONDecodeError e3)]; reflexivity.
Qed.

(** X6.  An empty header string, like any falsy [headers], is the same as no
    header string, for any Request Sender. *)
Theorem falsy_headers_are_no_headers send url method data headers timeout verbose w :
  truthy headers = false ->
  detect_with send url method data headers timeout verbose w =
  detect_with send url method data PNone timeout verbose w.
Proof.
  intros H.
  assert (E : forall p w0,
            run_probe send p url method headers timeout verbose w0 =
            run_probe send p url method PNone timeout verbose w0).
  { intros p w0. rewrite !run_probe_unfold.
    now rewrite (merged_headers_absent json_loads p headers w0 H). }
  rewrite !detect_with_unfold, E.
  destruct (run_probe send cl_te url method PNone timeout verbose w) as [[[b|]|e] w1];
    try reflexivity.
  rewrite E.
  destruct (run_probe send te_cl url method PNone timeout verbose w1) as [[[b|]|e] w2];
    try reflexivity.
  now rewrite E.
Qed.

(** *** The orchestrator *)

Lemma is_valid_url_true url r w :
  urlparse url = inr r -> scheme r <> "" -> netloc r <> "" ->
  is_valid_url url w = (Ok true, w).
Proof.
  intros U Hs Hn. rewrite is_valid_url_unfold, U. cbn.
  apply String.eqb_neq in Hs, Hn. now rewrite Hs, Hn.
Qed.

(** X7.  [main] makes no request, and ends in one of three ways: exit 1 after
    "Invalid URL provided.", exit 0 after "No immediate vulnerabilities
    found.", or exit 1 after "An error occurred during the scan".  It
    never ends on "Vulnerabilities found.". *)
Theorem main_sends_nothing_and_reports_nothing args w :
  sent (snd (main args w)) = sent w /\
  exists w1,
    main args w = (Ok 1, add_log w1 ERROR InvalidURL) \/
    main args w = (Ok 0, add_log w1 INFO ScanCompletedNotFound) \/
    exists e, main args w = (Ok 1, add_log w1 ERROR (ScanError e)).
Proof.
  rewrite main_unfold, is_valid_url_unfold.
  destruct (match urlparse (arg_url args) with inr _ => _ | inl _ => _ end).
  - destruct (detect_http_smuggling_outcome (arg_url args) (arg_method args)
                (arg_data args) (arg_headers args) (arg_timeout args) (arg_verbose args)
                (add_log w INFO (StartingScan (arg_url args))))
      as (r & w1 & -> & Hs & Hr).
    destruct r as [[|]|e]; [congruence| |]; (split; [exact Hs|]); exists w1; eauto.
  - split; [reflexivity|]. exists w. now left.
Qed.

(** X8.  With a valid URL and the header string absent or a JSON object, the
    run logs the start of the scan, one "unexpected error" for each of the
    three probes, and "No immediate vulnerabilities found."; it exits
    with 0. *)
Theorem main_log_of_a_plain_run args r w :
  urlparse (arg_url args) = inr r -> scheme r <> "" -> netloc r <> "" ->
  absent_or_object (arg_headers args) ->
  let failed := (ERROR, UnexpectedError type_error_not_dict) in
  main args w =
  (Ok 0, mk_world (sent w)
           (logs w ++ [(INFO, StartingScan (arg_url args)); failed; failed; failed;
                       (INFO, ScanCompletedNotFound)])).
Proof.
  intros U Hs Hn H failed.
  rewrite main_unfold, (is_valid_url_true _ r) by assumption.
  destruct (detect_http_smuggling_absent_or_object json_loads network (arg_url args)
              (arg_method args) (arg_data args) (arg_headers args) (arg_timeout args)
              (arg_verbose args) (add_log w INFO (StartingScan (arg_url args))) H)
    as [-> _].
  unfold add_log. cbn [sent logs]. now rewrite <- !app_assoc.
Qed.

(** X9.  With a valid URL and a header string that is not JSON, the run logs
    the start of the scan, the decoding error and "No immediate
    vulnerabilities found."; it sends nothing and exits with 0. *)
Theorem main_with_malformed_headers args r msg w :
  urlparse (arg_url args) = inr r -> scheme r <> "" -> netloc r <> "" ->
  malformed (arg_headers args) msg ->
  main args w =
  (Ok 0, mk_world (sent w)
           (logs w ++ [(INFO, StartingScan (arg_url args));
                       (ERROR, InvalidJSONHeaders (mk_exn JSONDecodeError msg));
                       (INFO, ScanCompletedNotFound)])).
Proof.
  intros U Hs Hn H.
  rewrite main_unfold, (is_valid_url_true _ r) by assumption.
  unfold Scanner.detect_http_smuggling.
  rewrite detect_with_unfold, run_probe_unfold,
    (merged_headers_malformed json_loads _ _ msg) by exact H.
  cbn. unfold add_log. cbn [sent logs]. now rewrite <- !app_assoc.
Qed.

(** *** Header strings that are JSON but no object *)

Lemma update_pair_error i item e :
  update_pair i item = inl e -> is_JSONDecodeError e = false.
Proof.
  unfold update_pair.
  destruct item as [ | b | z | f | s | l | d ]; try (now intros [= <-]).
  - destruct s as [|a [|b [|c s]]]; now intros [= <-].
  - destruct l as [|k [|v [|x l]]]; try (now intros [= <-]).
    destruct (hashable k); [discriminate|now intros [= <-]].
  - destruct d as [|[k1 v1] [|[k2 v2] [|x d]]]; try (now intros [= <-]).
    destruct (hashable k1); [discriminate|now intros [= <-]].
Qed.

Lemma update_pairs_error items : forall i d e,
  update_pairs i items d = inl e -> is_JSONDecodeError e = false.
Proof.
  induction items as [|item items IH]; cbn; intros i d e H; [discriminate|].
  destruct (update_pair i item) as [e'|[k v]] eqn:E.
  - injection H as <-. exact (update_pair_error _ _ _ E).
  - exact (IH _ _ _ H).
Qed.

(** What [dict.update] raises is never a [JSONDecodeError]. *)
Lemma dict_update_error d v e :
  dict_update d v = inl e -> is_JSONDecodeError e = false.
Proof.
  destruct v; cbn; try (now intros [= <-]); try discriminate;
    apply update_pairs_error.
Qed.

Lemma merged_headers_rejected p s v e w :
  s <> "" -> json_loads s = inr v -> dict_update (probe_headers p) v = inl e ->
  merged_headers p (PStr s) w = (Raise e, w).
Proof.
  intros Hs J D. unfold Scanner.merged_headers, json_loads_py. cbn [truthy].
  destruct (String.eqb_spec s ""); [contradiction|]. cbn [negb].
  rewrite J. cbv [ret bind lift raise]. now rewrite D.
Qed.

(** X10.  When the header string is JSON that [dict.update] refuses (a number,
    [null], [true], a non-empty string, a list that is no list of pairs),
    the scan raises that error in its first block, before anything is sent
    or logged; [main], given a valid URL, logs "An error occurred during
    the scan" and exits with 1. *)
Theorem unmergeable_headers_abort_the_scan args s v e r w :
  arg_headers args = PStr s -> s <> "" -> json_loads s = inr v ->
  dict_update (probe_headers cl_te) v = inl e ->
  urlparse (arg_url args) = inr r -> scheme r <> "" -> netloc r <> "" ->
  (forall send w0,
     detect_with send (arg_url args) (arg_method args) (arg_data args) (arg_headers args)
       (arg_timeout args) (arg_verbose args) w0 = (Raise e, w0)) /\
  main args w =
  (Ok 1, mk_world (sent w)
           (logs w ++ [(INFO, StartingScan (arg_url args)); (ERROR, ScanError e)])).
Proof.
  intros Hh Hs J D U Hsc Hn.
  assert (S : forall send w0,
            detect_with send (arg_url args) (arg_method args) (arg_data args)
              (arg_headers args) (arg_timeout args) (arg_verbose args) w0 = (Raise e, w0)).
  { intros send w0. rewrite detect_with_unfold, run_probe_unfold, Hh.
    rewrite (merged_headers_rejected cl_te s v e w0 Hs J D).
    now rewrite (dict_update_error _ _ _ D). }
  split; [exact S|].
  rewrite main_unfold, (is_valid_url_true _ r) by assumption.
  unfold Scanner.detect_http_smuggling. rewrite S.
  unfold add_log. cbn [sent logs]. now rewrite <- !app_assoc.
Qed.

Lemma update_pairs_of_pairs kvs : forall i d,
  forallb (fun kv => hashable (fst kv)) kvs = true ->
  update_pairs i (map (fun kv => PList [fst kv; snd kv]) kvs) d = inr (dict_merge d kvs).
Proof.
  unfold dict_merge.
  induction kvs as [|[k v] kvs IH]; intros i d H; cbn in *; [reflexivity|].
  apply andb_true_iff in H as [Hk H]. rewrite Hk. exact (IH _ _ H).
Qed.

(** X11.  A header string that is a JSON array of [[name, value]] pairs is
    accepted like the object with those members: the block hands the
    Request Sender the same merged dict. *)
Theorem array_of_pairs_merges_like_an_object send p url method s kvs timeout verbose w :
  s <> "" ->
  json_loads s = inr (PList (map (fun kv => PList [fst kv; snd kv]) kvs)) ->
  forallb (fun kv => hashable (fst kv)) kvs = true ->
  run_probe send p url method (PStr s) timeout verbose w =
    (t <- send url method (PStr (probe_data p))
            (PDict (dict_merge (probe_headers p) kvs)) timeout verbose ;;
     r <- unpack3 t ;;
     let '(status, _, resp_text) := r in
     check_response p status resp_text)%py w.
Proof.
  intros Hs J H. rewrite run_probe_unfold.
  assert (E : merged_headers p (PStr s) w = (Ok (dict_merge (probe_headers p) kvs), w)).
  { unfold Scanner.merged_headers, json_loads_py. cbn [truthy].
    destruct (String.eqb_spec s ""); [contradiction|]. cbn [negb].
    rewrite J. cbv [ret bind lift raise dict_update].
    now rewrite update_pairs_of_pairs by exact H. }
  now rewrite E.
Qed.

(** *** Header names that survive the merge *)

Lemma dict_get_setitem_some name k v d :
  dict_get (PStr name) d <> None -> dict_get (PStr name) (dict_setitem k v d) <> None.
Proof.
  rewrite dict_get_setitem. now destruct (key_eqb k (PStr name)).
Qed.

Lemma dict_merge_keeps name o : forall d,
  dict_get (PStr name) d <> None -> dict_get (PStr name) (dict_merge d o) <> None.
Proof.
  unfold dict_merge. induction o as [|[k v] o IH]; cbn; intros d H; [exact H|].
  apply IH. now apply dict_get_setitem_some.
Qed.

Lemma update_pairs_keeps name items : forall i d d',
  update_pairs i items d = inr d' ->
  dict_get (PStr name) d <> None -> dict_get (PStr name) d' <> None.
Proof.
  induction items as [|item items IH]; cbn; intros i d d' H Hd.
  - now injection H as <-.
  - destruct (update_pair i item) as [e|[k v]]; [discriminate|].
    eapply IH; [exact H|]. now apply dict_get_setitem_some.
Qed.

(** X12.  Custom headers can replace the value of a fixed header but cannot
    take the header away: every name of a probe's fixed dict is still a
    key of the dict the block goes on with, whatever the header string. *)
Theorem fixed_headers_survive_the_merge p headers w h w' name :
  merged_headers p headers w = (Ok h, w') ->
  dict_get (PStr name) (probe_headers p) <> None ->
  dict_get (PStr name) h <> None.
Proof.
  unfold Scanner.merged_headers, json_loads_py, bind, lift, raise, ret.
  destruct (truthy headers); [|now intros [= <- _]].
  destruct headers as [ | | | | s | | ]; try discriminate.
  destruct (json_loads s) as [msg|v]; [discriminate|].
  destruct (dict_update (probe_headers p) v) as [e|d] eqn:D; [discriminate|].
  intros [= <- _] H.
  destruct v; cbn in D; try discriminate.
  - eapply update_pairs_keeps; eauto.
  - eapply update_pairs_keeps; eauto.
  - injection D as <-. now apply dict_merge_keeps.
Qed.

(** *** The marker test *)

Lemma str_app_assoc a b c : ((a ++ b) ++ c)%string = (a ++ b ++ c)%string.
Proof. induction a as [|x a IH]; cbn; [reflexivity|now rewrite IH]. Qed.

Lemma str_app_nil_r a : (a ++ "")%string = a.
Proof. induction a as [|x a IH]; cbn; [reflexivity|now rewrite IH]. Qed.

Lemma prefix_spec p : forall s,
  String.prefix p s = true <-> exists post, s = (p ++ post)%string.
Proof.
  induction p as [|a p IH]; intros s.
  - destruct s; cbn; split; eauto.
  - destruct s as [|b s]; cbn.
    + split; [discriminate|]. now intros (post & [=]).
    + destruct (Ascii.ascii_dec a b) as [<-|N].
      * rewrite IH. split; intros (post & E); exists post; congruence.
      * split; [discriminate|]. intros (post & [= E _]). congruence.
Qed.

(** [needle in hay]: the needle stands somewhere in the hay. *)
Lemma str_contains_spec needle : forall hay,
  str_contains needle hay = true <->
  exists pre post, hay = (pre ++ needle ++ post)%string.
Proof.
  induction hay as [|c hay IH]; cbn [str_contains].
  - rewrite orb_false_r, prefix_spec. split.
    + intros (post & E). now exists "", post.
    + intros (pre & post & E). destruct pre; [now exists post|discriminate].
  - rewrite orb_true_iff, prefix_spec, IH. split.
    + intros [(post & E)|(pre & post & E)].
      * now exists "", post.
      * exists (String c pre), post. cbn. now rewrite E.
    + intros (pre & post & E). destruct pre as [|x pre].
      * left. now exists post.
      * right. injection E as _ E. now exists pre, post.
Qed.

(** X13.  A block marks its probe as detected exactly when the status it got
    is truthy and the text it got holds ["X-Foo: bar"] somewhere; it then
    logs the warning and nothing else.  With a falsy status or an empty
    text it goes on without a log line. *)
Theorem marker_detection p status body w :
  (forall w',
     check_response p status (PStr body) w = (Ok (Some true), w') <->
     truthy status = true /\
     (exists pre post, body = (pre ++ sentinel ++ post)%string) /\
     w' = add_log w WARNING (VulnerabilityDetected (probe_name p))) /\
  (truthy status = false \/ body = "" ->
   check_response p status (PStr body) w = (Ok None, w)).
Proof.
  unfold check_response, bind, lift, ret, log, add_log. cbn [py_in truthy].
  split.
  - intros w'. rewrite <- str_contains_spec.
    destruct (truthy status); cbn [andb].
    + destruct (String.eqb_spec body "") as [->|N]; cbn [negb].
      * split; [discriminate|]. intros (_ & C & _). discriminate.
      * destruct (str_contains sentinel body); split.
        -- intros [= <-]. auto.
        -- intros (_ & _ & ->). reflexivity.
        -- discriminate.
        -- intros (_ & [=] & _).
    + split; [discriminate|]. intros ([=] & _).
  - intros [->| ->]; [reflexivity|]. now rewrite andb_false_r.
Qed.

(** X14.  The probe bodies hold the marker themselves.  So with a Request
    Sender that keeps its contract, a server that reflects the request
    body in its response is reported at the first probe: the scan returns
    True after CL.TE and runs no other probe. *)
Theorem reflected_body_is_reported send url method data headers timeout verbose w :
  absent_or_object headers ->
  (forall u m d hs t v w0, exists status hdrs body w1,
      send u m (PStr d) hs t v w0 = (Ok [status; hdrs; PStr body], w1) /\
      truthy status = true /\
      exists pre post, body = (pre ++ d ++ post)%string) ->
  exists w1,
    detect_with send url method data headers timeout verbose w =
      (Ok true, add_log w1 WARNING (VulnerabilityDetected CL_TE)) /\
    probes_run send all_probes url method headers timeout verbose w = [CL_TE].
Proof.
  intros H Hsend.
  assert (E : exists w1,
            run_probe send cl_te url method headers timeout verbose w =
            (Ok (Some true), add_log w1 WARNING (VulnerabilityDetected CL_TE))).
  { rewrite run_probe_unfold.
    destruct (merged_headers_ok json_loads cl_te headers w H) as (h & -> & _).
    unfold bind.
    destruct (Hsend url method (probe_data cl_te) (PDict h) timeout verbose w)
      as (status & hdrs & body & w1 & -> & Hst & pre & post & ->).
    exists w1. cbn [unpack3 ret].
    unfold check_response, bind, lift, ret, log, add_log. cbn [py_in truthy].
    rewrite Hst. cbn [andb].
    assert (C : str_contains sentinel (pre ++ probe_data cl_te ++ post) = true).
    { apply str_contains_spec.
      exists (pre ++ "0" ++ CRLF ++ CRLF ++ "GET / HTTP/1.1" ++ CRLF)%string,
             (CRLF ++ CRLF ++ post)%string.
      rewrite !str_app_assoc. reflexivity. }
    rewrite C.
    destruct (String.eqb_spec (pre ++ probe_data cl_te ++ post) "") as [Z|_];
      [|reflexivity].
    rewrite Z in C. discriminate. }
  destruct E as (w1 & E). exists w1.
  rewrite detect_with_unfold. cbn [Scanner.probes_run all_probes]. rewrite E.
  split; reflexivity.
Qed.

End More.

(** ** Further examples *)

Lemma send_request_returns_response_example :
  exists w',
    send_request json_loads Mock2.moved "http://example.com" "GET" PNone PNone 10 false
      empty_world = (Ok [PInt 302; PDict []; PStr ""], w') /\
    sent w' = [mk_request "GET" "http://example.com" PNone PNone 10 false] /\
    (false = false -> logs w' = []).
Proof.
  refine (send_request_returns_response json_loads Mock2.moved "http://example.com" "GET"
            PNone PNone PNone 10 false empty_world
            (reply 302 "Found" ""
               (mk_request "GET" "http://example.com" PNone PNone 10 false))
            eq_refl eq_refl _).
  cbn. lia.
Defined.

Lemma send_request_network_error_example :
  exists w',
    send_request json_loads Mock2.refused "http://example.com" "GET" PNone PNone 10 false
      empty_world = (Ok [PNone; PNone; PNone], w') /\
    sent w' = [mk_request "GET" "http://example.com" PNone PNone 10 false] /\
    (false = false ->
     logs w' = [(ERROR, RequestFailed (mk_exn RequestException "Connection refused"))]).
Proof.
  exact (send_request_network_error json_loads Mock2.refused "http://example.com" "GET"
           PNone PNone PNone 10 false empty_world
           (mk_exn RequestException "Connection refused") eq_refl eq_refl).
Defined.

Lemma falsy_headers_example :
  detect_with json_loads (send_request json_loads echo) "http://example.com" "GET" PNone
    (PStr "") 10 false empty_world =
  detect_with json_loads (send_request json_loads echo) "http://example.com" "GET" PNone
    PNone 10 false empty_world.
Proof.
  exact (falsy_headers_are_no_headers json_loads (send_request json_loads echo)
           "http://example.com" "GET" PNone (PStr "") 10 false empty_world eq_refl).
Defined.

Lemma main_log_of_a_plain_run_example :
  main json_loads urlparse quiet (args0 PNone) empty_world =
  (Ok 0, mk_world []
           [(INFO, StartingScan "http://example.com");
            (ERROR, UnexpectedError type_error_not_dict);
            (ERROR, UnexpectedError type_error_not_dict);
            (ERROR, UnexpectedError type_error_not_dict);
            (INFO, ScanCompletedNotFound)]).
Proof.
  refine (main_log_of_a_plain_run json_loads urlparse quiet (args0 PNone)
            (mk_parse "http" "example.com" "" "" "" "") empty_world
            eq_refl _ _ (or_introl eq_refl)); discriminate.
Defined.

Lemma main_with_malformed_headers_example :
  main json_loads urlparse quiet (args0 (PStr "not json")) empty_world =
  (Ok 0, mk_world []
           [(INFO, StartingScan "http://example.com");
            (ERROR, InvalidJSONHeaders decode_error);
            (INFO, ScanCompletedNotFound)]).
Proof.
  refine (main_with_malformed_headers json_loads urlparse quiet (args0 (PStr "not json"))
            (mk_parse "http" "example.com" "" "" "" "") _ empty_world
            eq_refl _ _ not_json_malformed); discriminate.
Defined.

Lemma unmergeable_headers_example :
  (forall send w0,
     detect_with json_loads send "http://example.com" "GET" PNone (PStr "3") 10 false w0 =
     (Raise (mk_exn TypeError "'int' object is not iterable"), w0)) /\
  main json_loads urlparse quiet (args0 (PStr "3")) empty_world =
  (Ok 1, mk_world []
           [(INFO, StartingScan "http://example.com");
            (ERROR, ScanError (mk_exn TypeError "'int' object is not iterable"))]).
Proof.
  refine (unmergeable_headers_abort_the_scan json_loads urlparse quiet (args0 (PStr "3"))
            "3" (PInt 3) (mk_exn TypeError "'int' object is not iterable")
            (mk_parse "http" "example.com" "" "" "" "") empty_world
            eq_refl _ eq_refl eq_refl eq_refl _ _); discriminate.
Defined.

Lemma array_of_pairs_example :
  sent (snd (run_probe Mock2.json_loads (spy answer_ok) cl_te "http://example.com" "GET"
               (PStr Mock2.pairs_json) 10 false empty_world)) =
  [mk_request "GET" "http://example.com" (PStr (probe_data cl_te))
     (PDict [(PStr "Content-Length", PStr "41");
             (PStr "Transfer-Encoding", PStr "chunked");
             (PStr "X-A", PStr "1")])
     10 false].
Proof.
  rewrite (array_of_pairs_merges_like_an_object Mock2.json_loads (spy answer_ok) cl_te
             "http://example.com" "GET" Mock2.pairs_json [(PStr "X-A", PStr "1")]
             10 false empty_world); [reflexivity|discriminate|reflexivity|reflexivity].
Defined.

Lemma fixed_headers_survive_example :
  dict_get (PStr "Content-Length")
    [(PStr "Content-Length", PStr "41"); (PStr "Transfer-Encoding", PStr "chunked");
     (PStr "X-Foo", PStr "bar")] <> None.
Proof.
  refine (fixed_headers_survive_the_merge json_loads cl_te (PStr xfoo_json) empty_world
            _ empty_world "Content-Length" eq_refl _).
  discriminate.
Defined.

Lemma reflected_body_example :
  exists w1,
    detect_with json_loads (spy Mock2.answer_reflect) "http://example.com" "GET" PNone
      PNone 10 false empty_world =
      (Ok true, add_log w1 WARNING (VulnerabilityDetected CL_TE)) /\
    probes_run json_loads (spy Mock2.answer_reflect) all_probes "http://example.com" "GET"
      PNone 10 false empty_world = [CL_TE].
Proof.
  apply (reflected_body_is_reported json_loads (spy Mock2.answer_reflect)).
  - now left.
  - intros u m d hs t v w0. do 4 eexists. split; [reflexivity|]. split; [reflexivity|].
    exists "", "". cbn. now rewrite str_app_nil_r.
Defined.

(** The command line [http://example.com --method POST --data a=1]: the
    three requests a recording sender sees carry the probes' bodies, not
    [a=1]; and the script's own run is the one it makes without
    [--data]. *)
Lemma data_argument_example :
  sent (snd (detect_with json_loads (spy answer_ok) "http://example.com" "POST"
               (PStr "a=1") PNone 10 false empty_world)) =
    [mk_request "POST" "http://example.com" (PStr (probe_data cl_te))
       (PDict (probe_headers cl_te)) 10 false;
     mk_request "POST" "http://example.com" (PStr (probe_data te_cl))
       (PDict (probe_headers te_cl)) 10 false;
     mk_request "POST" "http://example.com" (PStr (probe_data te_te))
       (PDict (probe_headers te_te)) 10 false] /\
  detect_with json_loads (send_request json_loads quiet) "http://example.com" "POST"
    PNone PNone 10 false empty_world =
  detect_with json_loads (send_request json_loads quiet) "http://example.com" "POST"
    (PStr "a=1") PNone 10 false empty_world.
Proof.
  split.
  - exact (proj2 (data_argument_is_ignored json_loads (spy answer_ok) "http://example.com"
                    "POST" (PStr "a=1") PNone 10 false empty_world)
             answer_ok probe_headers (fun p w0 => eq_refl)).
  - exact (proj1 (proj1 (data_argument_is_ignored json_loads
                           (send_request json_loads quiet) "http://example.com" "POST"
                           (PStr "a=1") PNone 10 false empty_world)
                    (send_request json_loads quiet) PNone (fun p hs w0 _ => eq_refl))).
Defined.
